(** * ingest.py: data ingestion for sp-violence-heatmap

    A shallow embedding of [src/ingest.py] and the properties of its
    specification.  The script copies local files (or downloads) into
    [data/raw/], hashes the stored copy, optionally decodes it with pandas and
    writes a parquet file, and writes a JSON metadata sidecar.

    Modelling choices (all visible in the definitions below):
    - text is [string] (a sequence of bytes, UTF-8 for non-ASCII text), file
      contents are [list byte];
    - [pathlib.Path] is modelled lexically, as POSIX pure paths are: a flag
      for the root and the list of components;
    - the file system is a finite map from resolved locations to nodes (a
      regular file with its bytes, or a directory); there are no symbolic
      links, so [Path.resolve] is the lexical normalisation against the
      working directory;
    - effects are explicit: a function that touches the file system, the
      clock or the standard streams is a state transformer on [World] that
      returns either a value or the raised exception, together with the world
      it leaves behind (effects made before a [raise] persist);
    - SHA-256 is implemented from FIPS 180-4 and checked on test vectors;
    - the other libraries the script calls (pandas' decoders and the parquet
      encoder, requests, the clock, the password database) are the fields of
      the class [Env]. *)

From Stdlib Require Import Strings.Ascii Strings.String Strings.Byte.
From stdpp Require Import gmap strings list fin_maps pretty.
From Equations Require Import Equations.

Local Open Scope stdpp_scope.

(** ** Strings *)

Module Str.

(** [str.lower()] on the bytes of a string: the letters A-Z are mapped to
    a-z.  On non-ASCII code points Python's [lower] never produces one of
    the letters that occur in the recognised extensions, so the byte-wise
    version decides the same membership tests. *)
Definition lower_ascii (c : ascii) : ascii :=
  let n := nat_of_ascii c in
  if (65 <=? n) && (n <=? 90) then ascii_of_nat (n + 32) else c.

Fixpoint lower (s : string) : string :=
  match s with
  | EmptyString => EmptyString
  | String c s' => String (lower_ascii c) (lower s')
  end.

(** [s.rfind(c)]: index of the last occurrence of [c], [None] for -1. *)
Fixpoint rfind (c : ascii) (s : string) : option nat :=
  match s with
  | EmptyString => None
  | String a s' =>
      match rfind c s' with
      | Some i => Some (S i)
      | None => if Ascii.eqb a c then Some 0 else None
      end
  end.

(** [s[:n]] and [s[n:]]. *)
Fixpoint take (n : nat) (s : string) : string :=
  match n, s with
  | S n', String a s' => String a (take n' s')
  | _, _ => EmptyString
  end.

Fixpoint drop (n : nat) (s : string) : string :=
  match n, s with
  | S n', String _ s' => drop n' s'
  | _, _ => s
  end.

(** [s.split(c)]: the pieces between the occurrences of [c]; never empty. *)
Fixpoint split (c : ascii) (s : string) : list string :=
  match s with
  | EmptyString => [EmptyString]
  | String a s' =>
      if Ascii.eqb a c then EmptyString :: split c s'
      else match split c s' with
           | piece :: rest => String a piece :: rest
           | [] => [String a EmptyString]
           end
  end.

(** [sep.join(l)]. *)
Fixpoint join (sep : string) (l : list string) : string :=
  match l with
  | [] => ""
  | [x] => x
  | x :: rest => x +:+ sep +:+ join sep rest
  end.

(** [s[:1] == c]. *)
Definition starts_with (c : ascii) (s : string) : bool :=
  match s with
  | String a _ => Ascii.eqb a c
  | EmptyString => false
  end.

(** Truthiness of a [str]. *)
Definition truthy (s : string) : bool :=
  match s with EmptyString => false | _ => true end.

End Str.

(** ** pathlib *)

Record Path := mkPath { is_abs : bool; parts : list string }.

Global Instance Path_eq_dec : EqDecision Path.
Proof. solve_decision. Defined.

Module Pathlib.

(** [Path(s)]: split at "/", drop the empty and "." components; the path is
    absolute when [s] starts with "/".  (POSIX keeps a root of exactly two
    slashes apart; here it is the ordinary root.  [suffix] and [stem] below
    are those of Python up to 3.13, where a trailing dot is no suffix.) *)
Definition keep_component (c : string) : bool :=
  negb (bool_decide (c = "")) && negb (bool_decide (c = ".")).

Definition of_string (s : string) : Path :=
  mkPath (Str.starts_with "/" s) (filter (λ c, keep_component c = true) (Str.split "/" s)).

(** [str(p)]. *)
Definition to_string (p : Path) : string :=
  match parts p with
  | [] => if is_abs p then "/" else "."
  | _ => (if is_abs p then "/" else "") +:+ Str.join "/" (parts p)
  end.

(** [p / q]: an absolute right operand replaces the left one. *)
Definition join (p q : Path) : Path :=
  if is_abs q then q else mkPath (is_abs p) (parts p ++ parts q).

Definition joins (p : Path) (s : string) : Path := join p (of_string s).

(** [p.name]: the last component, or "" when there is none. *)
Definition name (p : Path) : string := List.last (parts p) "".

(** The test [0 < i < len(name) - 1] of [suffix] and [stem]. *)
Definition suffix_index (nm : string) : option nat :=
  match Str.rfind "." nm with
  | Some i => if (0 <? i) && (i + 1 <? String.length nm) then Some i else None
  | None => None
  end.

Definition suffix (p : Path) : string :=
  match suffix_index (name p) with
  | Some i => Str.drop i (name p)
  | None => ""
  end.

Definition stem (p : Path) : string :=
  match suffix_index (name p) with
  | Some i => Str.take i (name p)
  | None => name p
  end.

(** [p.parent]. *)
Definition parent (p : Path) : Path := mkPath (is_abs p) (removelast (parts p)).

(** [p.relative_to(root)], a lexical prefix test. *)
Fixpoint strip_prefix (pre l : list string) : option (list string) :=
  match pre, l with
  | [], _ => Some l
  | a :: pre', b :: l' => if bool_decide (a = b) then strip_prefix pre' l' else None
  | _ :: _, [] => None
  end.

Definition relative_to (p root : Path) : option Path :=
  if bool_decide (is_abs p = is_abs root)
  then mkPath false <$> strip_prefix (parts root) (parts p)
  else None.

End Pathlib.

Notation "p // s" := (Pathlib.joins p s) (at level 40, left associativity).

(** ** The format sniffer (lines 71-81) *)

Definition sniff_format (path : Path) : string :=
  let ext := Str.lower (Pathlib.suffix path) in
  if bool_decide (ext ∈ [".csv"]) then "csv"
  else if bool_decide (ext ∈ [".json"; ".geojson"]) then "json"
  else if bool_decide (ext ∈ [".xlsx"; ".xls"]) then "excel"
  else if bool_decide (ext ∈ [".parquet"]) then "parquet"
  else "unknown".

Example sniff_csv_upper : sniff_format (Pathlib.of_string "/tmp/Data.CSV") = "csv".
Proof. reflexivity. Qed.
Example sniff_hidden : sniff_format (Pathlib.of_string ".csv") = "unknown".
Proof. reflexivity. Qed.
Example sniff_targz : sniff_format (Pathlib.of_string "a/b.tar.GeoJson") = "json".
Proof. reflexivity. Qed.

(** ** Exceptions, values and the world *)

Inductive exn :=
| FileNotFoundError (path : string)
| FileExistsError (path : string)
| IsADirectoryError (path : string)
| NotADirectoryError (path : string)
| IndexError (msg : string)
| ValueError (msg : string)
| RuntimeError (msg : string)
| AttributeError (msg : string)
| RequestException (msg : string)   (* requests.exceptions: connection, timeout, HTTP status *)
| LibraryError (msg : string).      (* raised inside a pandas decoder or the parquet encoder *)

Inductive outcome (A : Type) :=
| Raised (e : exn)
| Returned (a : A).
Arguments Raised {A} e.
Arguments Returned {A} a.

(** A file-system node: a regular file with its bytes, or a directory. *)
Inductive node :=
| File (data : list byte)
| Dir.

Record World := mkWorld {
  fs : gmap (list string) node;   (* resolved location -> node *)
  clock_reads : nat;              (* how often the clock was read *)
  stdout : list string;           (* one entry per [print] *)
  stderr : list string;
}.

Definition set_fs (f : gmap (list string) node) (w : World) : World :=
  mkWorld f (clock_reads w) (stdout w) (stderr w).

(** Computations of the script: state passing with exceptions. *)
Definition IO (A : Type) : Type := World → outcome A * World.

Global Instance IO_ret : MRet IO := λ A a w, (Returned a, w).
Global Instance IO_bind : MBind IO := λ A B k m w,
  match m w with
  | (Returned a, w') => k a w'
  | (Raised e, w') => (Raised e, w')
  end.

Definition raise {A} (e : exn) : IO A := λ w, (Raised e, w).

(** [for x in l: body(x)]. *)
Fixpoint for_each {A} (l : list A) (body : A → IO unit) : IO unit :=
  match l with
  | [] => mret tt
  | x :: l' => body x ;; for_each l' body
  end.

(** [print(s)] and [print(s, file=sys.stderr)]. *)
Definition print (s : string) : IO unit := λ w,
  (Returned tt, mkWorld (fs w) (clock_reads w) (stdout w ++ [s]) (stderr w)).
Definition print_err (s : string) : IO unit := λ w,
  (Returned tt, mkWorld (fs w) (clock_reads w) (stdout w) (stderr w ++ [s])).

(** ** pandas values *)

(** A column label: a string (CSV header, JSON key) or an integer (positional
    labels of header-less data). *)
Inductive label :=
| LStr (s : string)
| LInt (z : Z).

Global Instance label_eq_dec : EqDecision label.
Proof. solve_decision. Defined.

(** A cell.  Floats are carried as their bit pattern; nothing here computes
    with them. *)
Inductive scalar :=
| SNull
| SBool (b : bool)
| SInt (z : Z)
| SFloat (bits : Z)
| SStr (s : string).

Record DataFrame := mkDataFrame {
  nrows : nat;                             (* len(df) *)
  columns : list (label * list scalar);    (* df.columns with the data *)
}.

(** [str(label)]. *)
Definition str_of_label (l : label) : string :=
  match l with
  | LStr s => s
  | LInt z => pretty z
  end.

(** [df[key] = v] for a scalar [v]: an existing column of that label is
    overwritten where it stands, otherwise the column is appended. *)
Definition df_setitem (df : DataFrame) (key : label) (v : scalar) : DataFrame :=
  let col := replicate (nrows df) v in
  if bool_decide (key ∈ (fst <$> columns df))
  then mkDataFrame (nrows df)
         ((λ c, if bool_decide (c.1 = key) then (c.1, col) else c) <$> columns df)
  else mkDataFrame (nrows df) (columns df ++ [(key, col)]).

(** What [read_any] can hand back: a frame, or the [dict] of sheets that
    [pd.read_excel(..., sheet_name=None)] returns.  The values of that dict
    are frames until the script stores strings in it. *)
Inductive dict_value :=
| VFrame (df : DataFrame)
| VStr (s : string).

Inductive pyobj :=
| PyFrame (df : DataFrame)
| PyDict (items : list (string * dict_value)).

(** [d[key] = v] on a [dict] (insertion ordered). *)
Fixpoint dict_setitem {V} (d : list (string * V)) (key : string) (v : V) : list (string * V) :=
  match d with
  | [] => [(key, v)]
  | (k, x) :: d' =>
      if bool_decide (k = key) then (k, v) :: d' else (k, x) :: dict_setitem d' key v
  end.

Fixpoint dict_get {V} (d : list (string * V)) (key : string) : option V :=
  match d with
  | [] => None
  | (k, x) :: d' => if bool_decide (k = key) then Some x else dict_get d' key
  end.

(** ** JSON values of the metadata record, and [json.dumps] *)

Inductive json :=
| JStr (s : string)
| JInt (z : Z)
| JList (l : list string).

Module Json.

Definition nl : string := String (ascii_of_nat 10) "".
Definition dq : string := String (ascii_of_nat 34) "".

Definition hex_digit (n : nat) : ascii :=
  match n with
  | 0 => "0" | 1 => "1" | 2 => "2" | 3 => "3" | 4 => "4" | 5 => "5" | 6 => "6"
  | 7 => "7" | 8 => "8" | 9 => "9" | 10 => "a" | 11 => "b" | 12 => "c"
  | 13 => "d" | 14 => "e" | _ => "f"
  end%char.

(** With [ensure_ascii=False] only the quote, the backslash and the control
    characters below 0x20 are escaped. *)
Definition escape_char (c : ascii) : string :=
  let n := nat_of_ascii c in
  if n =? 34 then "\" +:+ dq
  else if n =? 92 then "\\"
  else if n =? 10 then "\n"
  else if n =? 13 then "\r"
  else if n =? 9 then "\t"
  else if n =? 8 then "\b"
  else if n =? 12 then "\f"
  else if n <? 32 then "\u00" +:+ String (hex_digit (n / 16)) (String (hex_digit (n mod 16)) "")
  else String c "".

Fixpoint escape (s : string) : string :=
  match s with
  | EmptyString => ""
  | String c s' => escape_char c +:+ escape s'
  end.

Definition dumps_str (s : string) : string := dq +:+ escape s +:+ dq.

(** A value at nesting level 1 of a dict printed with [indent=2]. *)
Definition dumps_value (v : json) : string :=
  match v with
  | JStr s => dumps_str s
  | JInt z => pretty z
  | JList [] => "[]"
  | JList l =>
      "[" +:+ nl +:+
      Str.join ("," +:+ nl) ((λ s, "    " +:+ dumps_str s) <$> l) +:+
      nl +:+ "  ]"
  end.

(** [json.dumps(meta, ensure_ascii=False, indent=2)]. *)
Definition dumps (d : list (string * json)) : string :=
  match d with
  | [] => "{}"
  | _ =>
      "{" +:+ nl +:+
      Str.join ("," +:+ nl)
        ((λ kv, "  " +:+ dumps_str kv.1 +:+ ": " +:+ dumps_value kv.2) <$> d) +:+
      nl +:+ "}"
  end.

End Json.

(** ** requests *)

Inductive http_result :=
| ConnectionFailed (msg : string)
| Response (status : nat) (chunks : list (list byte)).

(** ** The environment: the libraries and the machine *)

Class Env := {
  (** components of [Path(__file__).resolve().parents[1]] *)
  ROOT_parts : list string;
  (** components of the working directory *)
  cwd : list string;
  (** home directory of a user, "" for the current one *)
  gethomedir : string → option string;
  (** the n-th reading of
      [datetime.now(timezone.utc).replace(microsecond=0).isoformat()] *)
  utc_clock : nat → string;
  (** pandas decoders on the bytes of a file *)
  pd_read_csv : list byte → outcome DataFrame;
  pd_read_json : list byte → outcome DataFrame;
  pd_read_parquet : list byte → outcome DataFrame;
  (** the sheets of a workbook, in workbook order *)
  excel_sheets : list byte → outcome (list (string * DataFrame));
  (** the parquet encoder behind [df.to_parquet(path, index=False)] *)
  to_parquet_bytes : DataFrame → outcome (list byte);
  (** the module global [requests]: [None] when the import failed, otherwise
      what [requests.get(url, stream=True, timeout=...)] answers *)
  requests : option (string → http_result);
}.

(** ** The file system *)

Module Fs.

(** Lexical resolution of a component list: ".." pops, "." is skipped. *)
Definition normalise (l : list string) : list string :=
  foldl (λ acc c,
           if bool_decide (c = "..") then removelast acc
           else if bool_decide (c = ".") then acc
           else acc ++ [c]) [] l.

(** The root directory always exists. *)
Definition node_at (f : gmap (list string) node) (k : list string) : option node :=
  if bool_decide (k = []) then Some Dir else f !! k.

(** [mkdir(parents=True, exist_ok=True)] on the location [seen ++ todo],
    whose prefix [seen] is known to be a directory: missing directories are
    created top-down; a regular file in the way is an error. *)
Fixpoint mkdir_from (shown : string) (seen todo : list string)
    (f : gmap (list string) node) : outcome (gmap (list string) node) :=
  match todo with
  | [] => Returned f
  | c :: rest =>
      let k := seen ++ [c] in
      match f !! k with
      | Some Dir => mkdir_from shown k rest f
      | Some (File _) =>
          Raised (match rest with
                  | [] => FileExistsError shown
                  | _ => NotADirectoryError shown
                  end)
      | None => mkdir_from shown k rest (<[k := Dir]> f)
      end
  end.

Definition mkdir_parents (shown : string) (k : list string)
    (f : gmap (list string) node) : outcome (gmap (list string) node) :=
  mkdir_from shown [] k f.

(** Opening for reading and reading all of it. *)
Definition read (shown : string) (k : list string)
    (f : gmap (list string) node) : outcome (list byte) :=
  match node_at f k with
  | Some (File data) => Returned data
  | Some Dir => Raised (IsADirectoryError shown)
  | None => Raised (FileNotFoundError shown)
  end.

(** Opening with mode "wb" (create or truncate) and writing [data]: the
    target must not be a directory and its parent must be one. *)
Definition write (shown : string) (k : list string) (data : list byte)
    (f : gmap (list string) node) : outcome (gmap (list string) node) :=
  match node_at f k with
  | Some Dir => Raised (IsADirectoryError shown)
  | _ =>
      match node_at f (removelast k) with
      | Some Dir => Returned (<[k := File data]> f)
      | Some (File _) => Raised (NotADirectoryError shown)
      | None => Raised (FileNotFoundError shown)
      end
  end.

(** [f.write(chunk)] on a file opened for writing. *)
Definition append (k : list string) (chunk : list byte)
    (f : gmap (list string) node) : gmap (list string) node :=
  match f !! k with
  | Some (File data) => <[k := File (data ++ chunk)]> f
  | _ => f
  end.

End Fs.

(** ** SHA-256 (FIPS 180-4), the function behind [hashlib.sha256] *)

Module Sha256.

Local Open Scope Z_scope.

Definition is_prime (n : nat) : bool :=
  forallb (λ d, negb (n mod d =? 0)%nat) (seq 2 (n - 2)).

(** The first sixty-four primes. *)
Definition primes : list Z :=
  Eval vm_compute in Z.of_nat <$> filter (λ n, is_prime n = true) (seq 2 310).

(** Integer cube root by bisection on the bits of the result. *)
Definition cbrt (n : Z) : Z :=
  foldl (λ r b, let r' := r + 2 ^ b in if r' * r' * r' <=? n then r' else r)
        0 (Z.of_nat <$> rev (seq 0 40)).

Definition w32 (x : Z) : Z := x mod 2 ^ 32.

(** Round constants: the first 32 bits of the fractional parts of the cube
    roots of the primes; initial state: the same for the square roots of the
    first eight. *)
Definition K : list Z :=
  Eval vm_compute in (λ p, w32 (cbrt (p * 2 ^ 96))) <$> primes.
Definition H0 : list Z :=
  Eval vm_compute in (λ p, w32 (Z.sqrt (p * 2 ^ 64))) <$> take 8 primes.

Definition rotr (n x : Z) : Z := Z.lor (Z.shiftr x n) (w32 (Z.shiftl x (32 - n))).
Definition xor3 (a b c : Z) : Z := Z.lxor (Z.lxor a b) c.
Definition Ch (x y z : Z) : Z := Z.lxor (Z.land x y) (Z.land (Z.lnot x) z).
Definition Maj (x y z : Z) : Z := xor3 (Z.land x y) (Z.land x z) (Z.land y z).
Definition Sigma0 (x : Z) : Z := xor3 (rotr 2 x) (rotr 13 x) (rotr 22 x).
Definition Sigma1 (x : Z) : Z := xor3 (rotr 6 x) (rotr 11 x) (rotr 25 x).
Definition sigma0 (x : Z) : Z := xor3 (rotr 7 x) (rotr 18 x) (Z.shiftr x 3).
Definition sigma1 (x : Z) : Z := xor3 (rotr 17 x) (rotr 19 x) (Z.shiftr x 10).

(** Padding: 0x80, zeros up to 56 mod 64, the bit length on 8 bytes. *)
Definition be_bytes (width : nat) (x : Z) : list Z :=
  (λ i, (Z.shiftr x (8 * Z.of_nat i)) mod 256) <$> rev (seq 0 width).

Definition pad (msg : list Z) : list Z :=
  let len := Z.of_nat (length msg) in
  msg ++ [128] ++ replicate (Z.to_nat ((55 - len) mod 64)) 0 ++ be_bytes 8 (8 * len).

Fixpoint be_words (l : list Z) : list Z :=
  match l with
  | a :: b :: c :: d :: rest => (((a * 256 + b) * 256 + c) * 256 + d) :: be_words rest
  | _ => []
  end.

(** The message schedule, newest word first. *)
Fixpoint schedule (n : nat) (w : list Z) : list Z :=
  match n with
  | O => w
  | S n' =>
      let x i := w !!! i in
      schedule n' (w32 (sigma1 (x 1%nat) + x 6%nat + sigma0 (x 14%nat) + x 15%nat) :: w)
  end.

Definition round (s : list Z) (kw : Z * Z) : list Z :=
  match s with
  | [a; b; c; d; e; f; g; h] =>
      let t1 := h + Sigma1 e + Ch e f g + kw.1 + kw.2 in
      let t2 := Sigma0 a + Maj a b c in
      [w32 (t1 + t2); a; b; c; w32 (d + t1); e; f; g]
  | _ => s
  end.

Definition compress (s block : list Z) : list Z :=
  let w := rev (schedule 48 (rev block)) in
  zip_with (λ x y, w32 (x + y)) s (foldl round s (zip K w)).

Fixpoint blocks (n : nat) (s words : list Z) : list Z :=
  match n with
  | O => s
  | S n' => blocks n' (compress s (take 16 words)) (drop 16 words)
  end.

Definition digest_words (msg : list byte) : list Z :=
  let words := be_words (pad ((λ b, Z.of_N (Byte.to_N b)) <$> msg)) in
  blocks (length words / 16) H0 words.

Definition hex_digit (n : Z) : ascii :=
  match n with
  | 0 => "0" | 1 => "1" | 2 => "2" | 3 => "3" | 4 => "4" | 5 => "5" | 6 => "6"
  | 7 => "7" | 8 => "8" | 9 => "9" | 10 => "a" | 11 => "b" | 12 => "c"
  | 13 => "d" | 14 => "e" | _ => "f"
  end%char.

Definition hex_word (x : Z) : string :=
  foldr (λ i acc, String (hex_digit ((Z.shiftr x (4 * Z.of_nat i)) mod 16)) acc)
        "" (rev (seq 0 8)).

Definition hexdigest (msg : list byte) : string :=
  foldr (λ w acc, hex_word w +:+ acc) "" (digest_words msg).

End Sha256.

Example sha256_empty :
  Sha256.hexdigest [] = "e3b0c44298fc1c149afbf4c8996fb92427ae41e4649b934ca495991b7852b855".
Proof. vm_compute. reflexivity. Qed.

Example sha256_abc :
  Sha256.hexdigest (String.list_byte_of_string "abc")
  = "ba7816bf8f01cfea414140de5dae2223b00361a396177a9cb410ff61f20015ad".
Proof. vm_compute. reflexivity. Qed.

Example sha256_two_blocks :
  Sha256.hexdigest (replicate 70 "a"%byte)
  = "6bd5e5034855a11241f0dee8fc72850ffd9955b28347a86428b5fa19119f6ad0".
Proof. vm_compute. reflexivity. Qed.

(** ** hashlib and buffered reads *)

Module Hashlib.

(** A hash object is determined by the bytes fed to it so far: repeated
    [update] calls are equivalent to one call with the concatenation. *)
Record hash := mkHash { fed : list byte }.

Definition sha256 : hash := mkHash [].
Definition update (h : hash) (data : list byte) : hash := mkHash (fed h ++ data).
Definition hexdigest (h : hash) : string := Sha256.hexdigest (fed h).

End Hashlib.

Module Buffer.

(** The first [n] bytes of [l], and what is left after them. *)
Fixpoint takeN (n : N) (l : list byte) : list byte :=
  match l with
  | [] => []
  | x :: l' => if (n =? 0)%N then [] else x :: takeN (N.pred n) l'
  end.

Fixpoint dropN (n : N) (l : list byte) : list byte :=
  match l with
  | [] => []
  | x :: l' => if (n =? 0)%N then l else dropN (N.pred n) l'
  end.

Lemma takeN_dropN n l : takeN n l ++ dropN n l = l.
Proof.
  revert n; induction l as [|x l IH]; intros n; simpl; [done|].
  destruct (n =? 0)%N; [done|]. simpl. by rewrite IH.
Qed.

Lemma length_dropN n l : length (dropN n l) = length l - length (takeN n l).
Proof.
  rewrite <- (takeN_dropN n l) at 2. rewrite length_app. lia.
Qed.

End Buffer.

(** 1024 * 1024, the size asked of [f.read] in [sha256_file]. *)
Definition READ_SIZE : N := (1024 * 1024)%N.

Definition inspect {A} (a : A) : {b : A | a = b} := exist _ a eq_refl.

(** The loop [for chunk in iter(lambda: f.read(size), b""): h.update(chunk)]
    over the unread part [unread] of the file. *)
Equations? hash_chunks (size : N) (h : Hashlib.hash) (unread : list byte) : Hashlib.hash
  by wf (length unread) lt :=
  hash_chunks size h unread with inspect (Buffer.takeN size unread) := {
    | exist _ [] _ => h
    | exist _ (b :: chunk) Hread =>
        hash_chunks size (Hashlib.update h (b :: chunk)) (Buffer.dropN size unread) }.
Proof.
  rewrite Buffer.length_dropN, Hread.
  pose proof (f_equal length (Buffer.takeN_dropN size unread)) as Hlen.
  rewrite length_app, Hread in Hlen. simpl in *. lia.
Qed.

(** ** The script *)

(** The namespace [argparse] produces (lines 155-161). *)
Record Args := mkArgs {
  args_input : list string;          (* --input, nargs="*" *)
  args_url : list string;            (* --url, one entry per occurrence *)
  args_name : list string;           (* --name, one entry per occurrence *)
  args_excel_sheet : option string;  (* --excel-sheet *)
  args_skip_parquet : bool;          (* --skip-parquet *)
}.

Section Ingest.
Context `{Env}.

(** Lines 36-39. *)
Definition ROOT : Path := mkPath true ROOT_parts.
Definition DATA_DIR : Path := ROOT // "data".
Definition RAW_DIR : Path := DATA_DIR // "raw".
Definition PROC_DIR : Path := DATA_DIR // "processed" // "ingested".

(** [path.resolve()]: without symbolic links, the normalised absolute
    location. *)
Definition resolve (p : Path) : list string :=
  Fs.normalise (if is_abs p then parts p else cwd ++ parts p).

(** *** pathlib methods that touch the file system *)

Definition fs_update (op : gmap (list string) node → outcome (gmap (list string) node)) : IO unit :=
  λ w, match op (fs w) with
       | Returned f => (Returned tt, set_fs f w)
       | Raised e => (Raised e, w)
       end.

Definition path_exists (p : Path) : IO bool :=
  λ w, (Returned (bool_decide (is_Some (Fs.node_at (fs w) (resolve p)))), w).

(** [p.mkdir(parents=True, exist_ok=True)]. *)
Definition mkdir (p : Path) : IO unit :=
  fs_update (Fs.mkdir_parents (Pathlib.to_string p) (resolve p)).

Definition read_bytes (p : Path) : IO (list byte) :=
  λ w, (Fs.read (Pathlib.to_string p) (resolve p) (fs w), w).

Definition write_bytes (p : Path) (data : list byte) : IO unit :=
  fs_update (Fs.write (Pathlib.to_string p) (resolve p) data).

(** [p.write_text(s, encoding="utf-8")]. *)
Definition write_text (p : Path) (s : string) : IO unit :=
  write_bytes p (String.list_byte_of_string s).

(** [p.relative_to(ROOT)], raising [ValueError] when [p] is not below it. *)
Definition relative_to_root (p : Path) : IO Path :=
  match Pathlib.relative_to p ROOT with
  | Some r => mret r
  | None => raise (ValueError (Pathlib.to_string p +:+ " is not in the subpath of " +:+
                               Pathlib.to_string ROOT))
  end.

(** Lines 42-43. *)
Definition utc_now_iso : IO string :=
  λ w, (Returned (utc_clock (clock_reads w)),
        mkWorld (fs w) (S (clock_reads w)) (stdout w) (stderr w)).

(** Lines 46-51. *)
Definition sha256_file (path : Path) : IO string :=
  content ← read_bytes path;
  mret (Hashlib.hexdigest (hash_chunks READ_SIZE Hashlib.sha256 content)).

(** Lines 54-56. *)
Definition ensure_dirs : IO unit :=
  mkdir RAW_DIR ;; mkdir PROC_DIR.

(** Lines 59-68. *)
Definition download_file (url : string) (dest : Path) : IO unit :=
  match requests with
  | None => raise (RuntimeError "requests is not installed. Install it or use --input local files.")
  | Some get =>
      mkdir (Pathlib.parent dest) ;;
      match get url with
      | ConnectionFailed msg => raise (RequestException msg)
      | Response status chunks =>
          if (400 <=? status) && (status <? 600)
          then raise (RequestException ("HTTP status " +:+ pretty status))
          else
            write_bytes dest [] ;;
            for_each chunks (λ chunk,
              match chunk with
              | [] => mret tt
              | _ => fs_update (λ f, Returned (Fs.append (resolve dest) chunk f))
              end)
      end
  end.

(** *** pandas readers on a path *)

Definition of_outcome {A} (r : outcome A) : IO A := λ w, (r, w).

Definition read_with (decoder : list byte → outcome DataFrame) (path : Path) : IO pyobj :=
  content ← read_bytes path;
  df ← of_outcome (decoder content);
  mret (PyFrame df).

(** [pd.read_excel(path, sheet_name=...)]: a sheet name selects that sheet;
    [None] selects all sheets and returns them as a dict keyed by name. *)
Definition pd_read_excel (path : Path) (sheet_name : option string) : IO pyobj :=
  content ← read_bytes path;
  sheets ← of_outcome (excel_sheets content);
  match sheet_name with
  | None => mret (PyDict (prod_map id VFrame <$> sheets))
  | Some s =>
      match dict_get sheets s with
      | Some df => mret (PyFrame df)
      | None => raise (ValueError ("Worksheet named '" +:+ s +:+ "' not found"))
      end
  end.

(** Lines 84-96. *)
Definition read_any (path : Path) (excel_sheet : option string) : IO pyobj :=
  let fmt := sniff_format path in
  if bool_decide (fmt = "csv") then read_with pd_read_csv path
  else if bool_decide (fmt = "json") then read_with pd_read_json path
  else if bool_decide (fmt = "excel") then pd_read_excel path excel_sheet
  else if bool_decide (fmt = "parquet") then read_with pd_read_parquet path
  else raise (ValueError ("Unsupported file format: " +:+ Pathlib.name path +:+
                          " (" +:+ Pathlib.suffix path +:+ ")")).

(** *** The operations [ingest_one] applies to what [read_any] returned *)

(** [obj[key] = value] with a string value. *)
Definition py_setitem (obj : pyobj) (key value : string) : pyobj :=
  match obj with
  | PyFrame df => PyFrame (df_setitem df (LStr key) (SStr value))
  | PyDict d => PyDict (dict_setitem d key (VStr value))
  end.

(** [obj.to_parquet(path, index=False)]. *)
Definition py_to_parquet (obj : pyobj) (out_path : Path) : IO unit :=
  match obj with
  | PyFrame df =>
      data ← of_outcome (to_parquet_bytes df);
      write_bytes out_path data
  | PyDict _ => raise (AttributeError "'dict' object has no attribute 'to_parquet'")
  end.

Definition py_len (obj : pyobj) : nat :=
  match obj with
  | PyFrame df => nrows df
  | PyDict d => length d
  end.

(** [list(map(str, obj.columns))]. *)
Definition py_columns (obj : pyobj) : IO (list string) :=
  match obj with
  | PyFrame df => mret (str_of_label <$> (fst <$> columns df))
  | PyDict _ => raise (AttributeError "'dict' object has no attribute 'columns'")
  end.

(** Lines 99-101. *)
Definition write_parquet (df : pyobj) (out_path : Path) : IO unit :=
  mkdir (Pathlib.parent out_path) ;;
  py_to_parquet df out_path.

(** Lines 104-106. *)
Definition write_metadata (meta : list (string * json)) (out_path : Path) : IO unit :=
  mkdir (Pathlib.parent out_path) ;;
  write_text out_path (Json.dumps meta).

(** *** [ingest_one], lines 109-151 *)

(** Line 121: [raw_name or source_path.name]. *)
Definition target_name (source_path : Path) (raw_name : option string) : string :=
  match raw_name with
  | Some n => if Str.truthy n then n else Pathlib.name source_path
  | None => Pathlib.name source_path
  end.

(** Line 122. *)
Definition raw_path_of (source_path : Path) (raw_name : option string) : Path :=
  RAW_DIR // target_name source_path raw_name.

(** Lines 124-125: the copy into raw storage. *)
Definition copy_to_raw (source_path raw_path : Path) : IO unit :=
  if bool_decide (resolve source_path ≠ resolve raw_path)
  then data ← read_bytes source_path; write_bytes raw_path data
  else mret tt.

(** Lines 127-133: the metadata common to both modes. *)
Definition base_meta (source_path raw_path : Path) : IO (list (string * json)) :=
  raw_rel ← relative_to_root raw_path;
  digest ← sha256_file raw_path;
  now ← utc_now_iso;
  mret [("raw_file", JStr (Pathlib.to_string raw_rel));
        ("original_path", JStr (Pathlib.to_string source_path));
        ("format", JStr (sniff_format raw_path));
        ("sha256", JStr digest);
        ("ingested_at", JStr now)].

Definition out_parquet_of (raw_path : Path) : Path :=
  PROC_DIR // (Pathlib.stem raw_path +:+ ".parquet").

Definition meta_path_of (raw_path : Path) : Path :=
  PROC_DIR // (Pathlib.stem raw_path +:+ ".meta.json").

(** Lines 135-146: decoding, stamping and the standardized output. *)
Definition convert (raw_path : Path) (excel_sheet : option string) (now : string)
    (meta : list (string * json)) : IO (list (string * json)) :=
  df ← read_any raw_path excel_sheet;
  let df := py_setitem df "source_file" (Pathlib.name raw_path) in
  let df := py_setitem df "ingested_at" now in
  let out_parquet := out_parquet_of raw_path in
  write_parquet df out_parquet ;;
  parquet_rel ← relative_to_root out_parquet;
  let meta := dict_setitem meta "parquet" (JStr (Pathlib.to_string parquet_rel)) in
  let meta := dict_setitem meta "rows" (JInt (Z.of_nat (py_len df))) in
  cols ← py_columns df;
  mret (dict_setitem meta "columns" (JList cols)).

(** [meta["ingested_at"]]. *)
Definition meta_ingested_at (meta : list (string * json)) : string :=
  match dict_get meta "ingested_at" with
  | Some (JStr s) => s
  | _ => ""
  end.

(** Lines 127-151: what follows the copy. *)
Definition record_ingestion (source_path raw_path : Path) (excel_sheet : option string)
    (skip_parquet : bool) : IO (list (string * json)) :=
  meta ← base_meta source_path raw_path;
  meta ← (if negb skip_parquet
          then convert raw_path excel_sheet (meta_ingested_at meta) meta
          else mret meta);
  let meta_path := meta_path_of raw_path in
  write_metadata meta meta_path ;;
  meta_rel ← relative_to_root meta_path;
  mret (dict_setitem meta "metadata" (JStr (Pathlib.to_string meta_rel))).

Definition ingest_one (source_path : Path) (raw_name excel_sheet : option string)
    (skip_parquet : bool) : IO (list (string * json)) :=
  ensure_dirs ;;
  found ← path_exists source_path;
  if negb found then raise (FileNotFoundError (Pathlib.to_string source_path))
  else
    let raw_path := raw_path_of source_path raw_name in
    copy_to_raw source_path raw_path ;;
    record_ingestion source_path raw_path excel_sheet skip_parquet.

(** *** [main], lines 154-192 *)

(** [Path(p).expanduser()]. *)
Definition expanduser (p : Path) : IO Path :=
  match is_abs p, parts p with
  | false, first :: rest =>
      if Str.starts_with "~" first then
        match gethomedir (Str.drop 1 first) with
        | Some home =>
            let h := Pathlib.of_string home in
            mret (mkPath (is_abs h) (parts h ++ rest))
        | None => raise (RuntimeError "Could not determine home directory.")
        end
      else mret p
  | _, _ => mret p
  end.

(** [meta['metadata']]. *)
Definition meta_metadata (meta : list (string * json)) : string :=
  match dict_get meta "metadata" with
  | Some (JStr s) => s
  | _ => ""
  end.

(** Line 172:
    [args.name[i] if args.name else Path(url.split("?")[0]).name or f"download_{i}"]. *)
Definition url_filename (names : list string) (i : nat) (url : string) : IO string :=
  match names with
  | _ :: _ =>
      match names !! i with
      | Some n => mret n
      | None => raise (IndexError "list index out of range")
      end
  | [] =>
      let n := Pathlib.name (Pathlib.of_string (List.hd "" (Str.split "?" url))) in
      mret (if Str.truthy n then n else "download_" +:+ pretty i)
  end.

(** Lines 172-178, the body of the loop over the URLs. *)
Definition ingest_url (args : Args) (i : nat) (url : string) : IO unit :=
  fname ← url_filename (args_name args) i url;
  let dest := RAW_DIR // fname in
  print ("Downloading: " +:+ url +:+ " -> " +:+ Pathlib.to_string dest) ;;
  download_file url dest ;;
  meta ← ingest_one dest (Some fname) (args_excel_sheet args) (args_skip_parquet args);
  print ("✓ Ingested " +:+ fname +:+ " (meta: " +:+ meta_metadata meta +:+ ")").

(** Lines 182-185, the body of the loop over the local files. *)
Definition ingest_local (args : Args) (p : string) : IO unit :=
  path ← expanduser (Pathlib.of_string p);
  print ("Ingesting local file: " +:+ Pathlib.to_string path) ;;
  meta ← ingest_one path None (args_excel_sheet args) (args_skip_parquet args);
  print ("✓ Ingested " +:+ Pathlib.name path +:+ " (meta: " +:+ meta_metadata meta +:+ ")").

Definition NAME_COUNT_ERROR : string :=
  "ERROR: --name must be provided the same number of times as --url (or not used).".
Definition NOTHING_ERROR : string :=
  "Nothing to ingest. Use --input <file> or --url <link>.".

(** Lines 166-178: the downloads.  [Some code] is an early [return code]. *)
Definition handle_downloads (args : Args) : IO (option Z) :=
  match args_url args with
  | [] => mret None
  | _ :: _ =>
      if bool_decide (args_name args ≠ []) &&
         negb (length (args_name args) =? length (args_url args))
      then print_err NAME_COUNT_ERROR ;; mret (Some 2%Z)
      else
        for_each (imap (λ i url, (i, url)) (args_url args))
                 (λ iu, ingest_url args iu.1 iu.2) ;;
        mret None
  end.

(** [main] after [parse_args]; the value is the exit code. *)
Definition main (args : Args) : IO Z :=
  ensure_dirs ;;
  early ← handle_downloads args;
  match early with
  | Some code => mret code
  | None =>
      for_each (args_input args) (ingest_local args) ;;
      if bool_decide (args_url args = []) && bool_decide (args_input args = [])
      then print_err NOTHING_ERROR ;; mret 2%Z
      else
        print (Json.nl +:+ "Done." +:+ Json.nl +:+
               "- Raw: " +:+ Pathlib.to_string RAW_DIR +:+ Json.nl +:+
               "- Processed: " +:+ Pathlib.to_string PROC_DIR) ;;
        mret 0%Z
  end.

End Ingest.

(** ** A concrete environment

    A small machine on which the script can be run by evaluation.  Its
    decoders read a comma-separated text; its parquet encoder writes one line
    per column behind the magic bytes; its HTTP client knows one URL.  The
    theorems below are stated for every environment; this one supplies their
    concrete instances. *)

Module Demo.

Fixpoint digits_value (acc : Z) (s : string) : option Z :=
  match s with
  | EmptyString => Some acc
  | String c s' =>
      match Ascii.is_nat c with
      | Some d => digits_value (acc * 10 + Z.of_nat d) s'
      | None => None
      end
  end.

Definition parse_cell (s : string) : scalar :=
  match s with
  | EmptyString => SNull
  | _ => match digits_value 0 s with
         | Some z => SInt z
         | None => SStr s
         end
  end.

Definition show_cell (c : scalar) : string :=
  match c with
  | SNull => ""
  | SBool b => if b then "True" else "False"
  | SInt z => pretty z
  | SFloat bits => "f" +:+ pretty bits
  | SStr s => s
  end.

Definition text_lines (data : list byte) : list string :=
  filter (λ l, l ≠ "") (Str.split (ascii_of_nat 10) (String.string_of_list_byte data)).

(** Header line, then one line per row. *)
Definition read_csv (data : list byte) : outcome DataFrame :=
  match text_lines data with
  | [] => Raised (LibraryError "No columns to parse from file")
  | header :: rows =>
      let cells := Str.split "," <$> rows in
      Returned (mkDataFrame (length rows)
        (imap (λ j nm, (LStr nm, (λ r, parse_cell (nth j r "")) <$> cells))
              (Str.split "," header)))
  end.

(** "PAR1", then one line [label,cell,...] per column. *)
Definition to_parquet (df : DataFrame) : outcome (list byte) :=
  Returned (String.list_byte_of_string
    (Str.join Json.nl
       ("PAR1" :: ((λ c, Str.join "," (str_of_label c.1 :: (show_cell <$> c.2)))
                   <$> columns df)))).

Definition read_parquet (data : list byte) : outcome DataFrame :=
  match text_lines data with
  | "PAR1" :: cols =>
      let cols := Str.split "," <$> cols in
      Returned (mkDataFrame
        (match cols with c :: _ => length c - 1 | [] => 0 end)
        ((λ c, (LStr (List.hd "" c), parse_cell <$> List.tl c)) <$> cols))
  | _ => Raised (LibraryError "Parquet magic bytes not found")
  end.

(** A workbook with the single sheet "Sheet1". *)
Definition workbook (data : list byte) : outcome (list (string * DataFrame)) :=
  match read_csv data with
  | Returned df => Returned [("Sheet1", df)]
  | Raised e => Raised e
  end.

Definition http_get (url : string) : http_result :=
  if bool_decide (url = "https://example.com/data.csv?v=1")
  then Response 200 [String.list_byte_of_string "a,b"; [];
                     String.list_byte_of_string (Json.nl +:+ "1,2" +:+ Json.nl)]
  else Response 404 [].

Definition env (client : option (string → http_result)) : Env := {|
  ROOT_parts := ["srv"; "sp"];
  cwd := ["home"; "ana"];
  gethomedir := λ user, if bool_decide (user = "") then Some "/home/ana" else None;
  utc_clock := λ n, "2024-05-01T12:00:0" +:+ pretty (n mod 10) +:+ "+00:00";
  pd_read_csv := read_csv;
  pd_read_json := λ _, Raised (LibraryError "Expected object or value");
  pd_read_parquet := read_parquet;
  excel_sheets := workbook;
  to_parquet_bytes := to_parquet;
  requests := client;
|}.

Definition online : Env := env (Some http_get).
Definition offline : Env := env None.

Definition text (s : string) : node := File (String.list_byte_of_string s).

(** /home/ana/t.csv holds the table of the specification's example. *)
Definition t_csv : string := "a,b" +:+ Json.nl +:+ "1,2" +:+ Json.nl +:+ "3,4" +:+ Json.nl.

Definition disk : gmap (list string) node :=
  list_to_map [
    (["home"], Dir); (["home"; "ana"], Dir);
    (["home"; "ana"; "t.csv"], text t_csv);
    (["home"; "ana"; "book.xlsx"], text t_csv);
    (["home"; "ana"; "notes.txt"], text "hello");
    (["home"; "ana"; "stamped.csv"],
       text ("source_file,b" +:+ Json.nl +:+ "old,2" +:+ Json.nl))
  ].

Definition world0 : World := mkWorld disk 0 [] [].

Definition no_args : Args := mkArgs [] [] [] None false.

End Demo.

(** * Properties *)

(** ** The monad *)

Lemma bind_returned {A B} (m : IO A) (k : A → IO B) w a w' :
  m w = (Returned a, w') → (m ≫= k) w = k a w'.
Proof. intros Hm. unfold mbind, IO_bind. by rewrite Hm. Qed.

Lemma bind_raised {A B} (m : IO A) (k : A → IO B) w e w' :
  m w = (Raised e, w') → (m ≫= k) w = (Raised e, w').
Proof. intros Hm. unfold mbind, IO_bind. by rewrite Hm. Qed.

Lemma bind_returned_inv {A B} (m : IO A) (k : A → IO B) w b w2 :
  (m ≫= k) w = (Returned b, w2) →
  ∃ a w1, m w = (Returned a, w1) ∧ k a w1 = (Returned b, w2).
Proof.
  unfold mbind, IO_bind. destruct (m w) as [[e|a] w1]; [done|]. eauto.
Qed.

(** A run whose first component is known. *)
Lemma run_returned {A} (run : outcome A * World) (a : A) :
  run.1 = Returned a → run = (Returned a, run.2).
Proof. destruct run as [r w]. simpl. by intros ->. Qed.

(** ** Hashing in chunks *)

Lemma takeN_nil_inv n l : (0 < n)%N → Buffer.takeN n l = [] → l = [].
Proof.
  intros Hn. destruct l as [|x l]; [done|]. simpl.
  destruct (N.eqb_spec n 0); [lia|done].
Qed.

Lemma hash_chunks_fed size h unread :
  (0 < size)%N →
  Hashlib.fed (hash_chunks size h unread) = Hashlib.fed h ++ unread.
Proof.
  intros Hsize. funelim (hash_chunks size h unread).
  - rewrite (takeN_nil_inv size unread Hsize); [|done]. by rewrite app_nil_r.
  - rewrite H by done. simpl. rewrite <- app_assoc. f_equal.
    rewrite <- Hread. apply Buffer.takeN_dropN.
Qed.

(** ** Path names *)

Fixpoint has_slash (s : string) : bool :=
  match s with
  | EmptyString => false
  | String a s' => Ascii.eqb a "/" || has_slash s'
  end.

(** An ordinary file name: one component, neither "." nor "..". *)
Definition plain_name (c : string) : Prop :=
  c ≠ "" ∧ c ≠ "." ∧ c ≠ ".." ∧ has_slash c = false.

Global Instance plain_name_dec c : Decision (plain_name c).
Proof. unfold plain_name. apply _. Defined.

Lemma split_no_slash c : has_slash c = false → Str.split "/" c = [c].
Proof.
  induction c as [|a c IH]; [done|]. simpl.
  intros [Ha Hc]%orb_false_iff. rewrite Ha, (IH Hc). done.
Qed.

Lemma of_string_plain c : plain_name c → Pathlib.of_string c = mkPath false [c].
Proof.
  intros (Hne & Hdot & _ & Hslash). unfold Pathlib.of_string.
  rewrite (split_no_slash c Hslash). f_equal.
  - destruct c as [|a c]; [done|]. simpl in *. by apply orb_false_iff in Hslash as [-> _].
  - rewrite filter_cons_True; [done|].
    unfold Pathlib.keep_component.
    rewrite !bool_decide_eq_false_2 by done. done.
Qed.

Lemma has_slash_app a b : has_slash (a +:+ b) = has_slash a || has_slash b.
Proof. induction a as [|x a IH]; [done|]. simpl. by rewrite IH, orb_assoc. Qed.

Lemma has_slash_take i s : has_slash s = false → has_slash (Str.take i s) = false.
Proof.
  revert i; induction s as [|a s IH]; intros [|i]; try done. simpl.
  intros [Ha Hs]%orb_false_iff. by rewrite Ha, IH.
Qed.

Lemma length_string_app a b : String.length (a +:+ b) = String.length a + String.length b.
Proof. induction a as [|x a IH]; [done|]. simpl. by rewrite IH. Qed.

Lemma stem_no_slash p : has_slash (Pathlib.name p) = false → has_slash (Pathlib.stem p) = false.
Proof.
  intros Hn. unfold Pathlib.stem. destruct (Pathlib.suffix_index _); [|done].
  by apply has_slash_take.
Qed.

(** A stem followed by an extension of at least three characters is an
    ordinary file name. *)
Lemma plain_stem_ext p ext :
  has_slash (Pathlib.name p) = false → has_slash ext = false → 3 ≤ String.length ext →
  plain_name (Pathlib.stem p +:+ ext).
Proof.
  intros Hn Hext Hlen.
  assert (∀ s, String.length s < 3 → Pathlib.stem p +:+ ext ≠ s) as Hne.
  { intros s Hs Heq. apply (f_equal String.length) in Heq.
    rewrite length_string_app in Heq. lia. }
  repeat split; try (apply Hne; simpl; lia).
  rewrite has_slash_app, Hext, (stem_no_slash p Hn). done.
Qed.

(** ** Resolved locations *)

Lemma normalise_snoc l c :
  c ≠ ".." → c ≠ "." → Fs.normalise (l ++ [c]) = Fs.normalise l ++ [c].
Proof.
  intros H1 H2. unfold Fs.normalise. rewrite foldl_snoc.
  by rewrite !bool_decide_eq_false_2.
Qed.

Section Locations.
Context `{Env}.

Definition root_key : list string := Fs.normalise ROOT_parts.
Definition raw_dir_key : list string := root_key ++ ["data"; "raw"].
Definition proc_dir_key : list string := root_key ++ ["data"; "processed"; "ingested"].

Lemma joins_plain p c : plain_name c → p // c = mkPath (is_abs p) (parts p ++ [c]).
Proof. intros Hc. unfold Pathlib.joins. by rewrite (of_string_plain c Hc). Qed.

Ltac plain_literal := by repeat split.

Lemma RAW_DIR_parts : RAW_DIR = mkPath true (ROOT_parts ++ ["data"; "raw"]).
Proof.
  unfold RAW_DIR, DATA_DIR, ROOT. rewrite !joins_plain by plain_literal.
  simpl. by rewrite <- app_assoc.
Qed.

Lemma PROC_DIR_parts : PROC_DIR = mkPath true (ROOT_parts ++ ["data"; "processed"; "ingested"]).
Proof.
  unfold PROC_DIR, DATA_DIR, ROOT. rewrite !joins_plain by plain_literal.
  simpl. by rewrite <- !app_assoc.
Qed.

Lemma resolve_RAW_DIR : resolve RAW_DIR = raw_dir_key.
Proof.
  rewrite RAW_DIR_parts. unfold resolve, raw_dir_key, root_key. simpl.
  change ["data"; "raw"] with (["data"] ++ ["raw"]). rewrite !app_assoc.
  rewrite !normalise_snoc by done. by rewrite <- app_assoc.
Qed.

Lemma resolve_PROC_DIR : resolve PROC_DIR = proc_dir_key.
Proof.
  rewrite PROC_DIR_parts. unfold resolve, proc_dir_key, root_key. simpl.
  change ["data"; "processed"; "ingested"] with (["data"] ++ ["processed"] ++ ["ingested"]).
  rewrite !app_assoc. rewrite !normalise_snoc by done. by rewrite <- !app_assoc.
Qed.

Lemma resolve_in_RAW_DIR c : plain_name c → resolve (RAW_DIR // c) = raw_dir_key ++ [c].
Proof.
  intros Hc. rewrite (joins_plain _ _ Hc), <- resolve_RAW_DIR.
  unfold resolve. simpl. destruct Hc as (_ & ? & ? & _). by apply normalise_snoc.
Qed.

Lemma resolve_in_PROC_DIR c : plain_name c → resolve (PROC_DIR // c) = proc_dir_key ++ [c].
Proof.
  intros Hc. rewrite (joins_plain _ _ Hc), <- resolve_PROC_DIR.
  unfold resolve. simpl. destruct Hc as (_ & ? & ? & _). by apply normalise_snoc.
Qed.

Lemma name_joins_plain p c : plain_name c → Pathlib.name (p // c) = c.
Proof.
  intros Hc. rewrite (joins_plain _ _ Hc). unfold Pathlib.name. simpl.
  apply List.last_last.
Qed.

Lemma parent_joins_plain p c : plain_name c → Pathlib.parent (p // c) = p.
Proof.
  intros Hc. rewrite (joins_plain _ _ Hc). unfold Pathlib.parent. simpl.
  rewrite removelast_last. by destruct p.
Qed.

(** Below [ROOT], [relative_to] succeeds. *)
Lemma strip_prefix_app pre l : Pathlib.strip_prefix pre (pre ++ l) = Some l.
Proof. induction pre as [|a pre IH]; [done|]. simpl. by rewrite bool_decide_eq_true_2. Qed.

Lemma relative_in_RAW_DIR c w :
  plain_name c →
  relative_to_root (RAW_DIR // c) w = (Returned (mkPath false ["data"; "raw"; c]), w).
Proof.
  intros Hc. unfold relative_to_root, Pathlib.relative_to.
  rewrite (joins_plain _ _ Hc), RAW_DIR_parts. unfold ROOT. simpl.
  rewrite <- !app_assoc. simpl. by rewrite strip_prefix_app.
Qed.

Lemma relative_in_PROC_DIR c w :
  plain_name c →
  relative_to_root (PROC_DIR // c) w
  = (Returned (mkPath false ["data"; "processed"; "ingested"; c]), w).
Proof.
  intros Hc. unfold relative_to_root, Pathlib.relative_to.
  rewrite (joins_plain _ _ Hc), PROC_DIR_parts. unfold ROOT. simpl.
  rewrite <- !app_assoc. simpl. by rewrite strip_prefix_app.
Qed.

End Locations.

(** ** Directories *)

(** The bytes of the regular file at a location, if there is one. *)
Definition file_at (f : gmap (list string) node) (k : list string) : option (list byte) :=
  match Fs.node_at f k with
  | Some (File data) => Some data
  | _ => None
  end.

Lemma node_at_snoc f k c : Fs.node_at f (k ++ [c]) = f !! (k ++ [c]).
Proof. unfold Fs.node_at. rewrite bool_decide_eq_false_2; [done|]. by destruct k. Qed.

Lemma file_at_snoc f k c :
  file_at f (k ++ [c]) = match f !! (k ++ [c]) with Some (File data) => Some data | _ => None end.
Proof. unfold file_at. by rewrite node_at_snoc. Qed.

Lemma file_at_node f k data : file_at f k = Some data ↔ Fs.node_at f k = Some (File data).
Proof.
  unfold file_at. destruct (Fs.node_at f k) as [[d|]|]; split; intros; congruence.
Qed.

(** Every directory on the way from [seen] down to [seen ++ k] exists. *)
Definition dirs_ready (f : gmap (list string) node) (seen k : list string) : Prop :=
  ∀ t, t ≠ [] → t `prefix_of` k → f !! (seen ++ t) = Some Dir.

Lemma dirs_ready_cons f seen c rest :
  dirs_ready f seen (c :: rest) ↔
  f !! (seen ++ [c]) = Some Dir ∧ dirs_ready f (seen ++ [c]) rest.
Proof.
  split.
  - intros Hr. split.
    + apply Hr; [done|]. by exists rest.
    + intros t Ht Hpre. rewrite <- app_assoc. simpl.
      apply Hr; [done|]. by apply prefix_cons.
  - intros [Hc Hrest] t Ht Hpre. destruct t as [|a t]; [done|].
    apply prefix_cons_inv_1 in Hpre as Ha. apply prefix_cons_inv_2 in Hpre.
    subst a. destruct t as [|b t]; [done|].
    specialize (Hrest (b :: t)). rewrite <- app_assoc in Hrest. by apply Hrest.
Qed.

(** [mkdir] on directories that exist changes nothing. *)
Lemma mkdir_from_ready shown seen todo f :
  dirs_ready f seen todo → Fs.mkdir_from shown seen todo f = Returned f.
Proof.
  revert seen. induction todo as [|c rest IH]; intros seen Hr; [done|].
  apply dirs_ready_cons in Hr as [Hc Hrest]. simpl. rewrite Hc. by apply IH.
Qed.

(** A successful [mkdir] only adds directories, on the way to its target,
    where nothing was. *)
Lemma mkdir_from_returned shown seen todo f f' :
  Fs.mkdir_from shown seen todo f = Returned f' →
  f ⊆ f' ∧ dirs_ready f' seen todo ∧
  ∀ k, f' !! k = f !! k ∨
       (f !! k = None ∧ f' !! k = Some Dir ∧ ∃ t, t ≠ [] ∧ t `prefix_of` todo ∧ k = seen ++ t).
Proof.
  revert seen f. induction todo as [|c rest IH]; intros seen f Hm; simpl in Hm.
  { inversion Hm; subst. split; [done|]. split; [|by left].
    intros t Ht Hpre. by apply prefix_nil_inv in Hpre. }
  destruct (f !! (seen ++ [c])) as [[data|]|] eqn:Hc; [done| |].
  - destruct (IH _ _ Hm) as (Hsub & Hr & Hk). split; [done|]. split.
    + apply dirs_ready_cons. split; [|done]. by eapply lookup_weaken.
    + intros k. destruct (Hk k) as [?|(? & ? & t & ? & ? & ->)]; [by left|right].
      do 2 (split; [done|]). exists (c :: t). split; [done|].
      split; [by apply prefix_cons|]. by rewrite <- app_assoc.
  - destruct (IH _ _ Hm) as (Hsub & Hr & Hk).
    assert (f ⊆ <[seen ++ [c] := Dir]> f) as Hins by by apply insert_subseteq.
    split; [by etrans|]. split.
    + apply dirs_ready_cons. split; [|done].
      eapply lookup_weaken; [|done]. apply lookup_insert_eq.
    + intros k. destruct (Hk k) as [Heq|(Hnone & ? & t & ? & ? & ->)].
      * destruct (decide (k = seen ++ [c])) as [->|Hne].
        -- right. rewrite lookup_insert_eq in Heq. do 2 (split; [done|]).
           exists [c]. split; [done|]. split; [|done]. by exists rest.
        -- left. by rewrite lookup_insert_ne in Heq.
      * right. split.
        { destruct (f !! ((seen ++ [c]) ++ t)) eqn:Hf; [|done].
          eapply lookup_weaken in Hf; [|exact Hins]. congruence. }
        split; [done|]. exists (c :: t). split; [done|].
        split; [by apply prefix_cons|]. by rewrite <- app_assoc.
Qed.

Lemma dirs_ready_node f k : dirs_ready f [] k → Fs.node_at f k = Some Dir.
Proof.
  intros Hr. unfold Fs.node_at. case_bool_decide; [done|]. by apply (Hr k).
Qed.

Lemma dirs_ready_insert f k k' x :
  dirs_ready f [] k → ¬ k' `prefix_of` k → dirs_ready (<[k' := x]> f) [] k.
Proof.
  intros Hr Hk' t Ht Hpre. simpl. rewrite lookup_insert_ne; [by apply Hr|].
  by intros ->.
Qed.

Lemma file_at_mkdir shown k f f' :
  Fs.mkdir_parents shown k f = Returned f' → ∀ k', file_at f' k' = file_at f k'.
Proof.
  intros Hm k'. apply mkdir_from_returned in Hm as (_ & _ & Hk).
  unfold file_at, Fs.node_at. case_bool_decide; [done|].
  destruct (Hk k') as [->|(-> & -> & _)]; done.
Qed.

(** Writing below a directory that exists. *)
Lemma write_returned shown k c data f :
  dirs_ready f [] k → f !! (k ++ [c]) ≠ Some Dir →
  Fs.write shown (k ++ [c]) data f = Returned (<[k ++ [c] := File data]> f).
Proof.
  intros Hr Hnd. unfold Fs.write.
  rewrite node_at_snoc, removelast_last, (dirs_ready_node _ _ Hr).
  by destruct (f !! (k ++ [c])) as [[]|].
Qed.

(** ** Steps of the script *)

Section Steps.
Context `{Env}.

Lemma set_fs_id w : set_fs (fs w) w = w.
Proof. by destruct w. Qed.

Lemma dirs_ready_weaken f f' seen k : f ⊆ f' → dirs_ready f seen k → dirs_ready f' seen k.
Proof. intros Hsub Hr t Ht Hpre. eapply lookup_weaken; [|done]. by apply Hr. Qed.

Lemma mkdir_inv p w r w' :
  mkdir p w = (r, w') →
  (∃ f', Fs.mkdir_parents (Pathlib.to_string p) (resolve p) (fs w) = Returned f'
         ∧ r = Returned tt ∧ w' = set_fs f' w)
  ∨ (∃ e, r = Raised e ∧ w' = w).
Proof.
  unfold mkdir, fs_update. destruct (Fs.mkdir_parents _ _ _) as [e|f'] eqn:Hm;
    intros [= <- <-]; [right|left]; eauto.
Qed.

Lemma mkdir_ready p w :
  dirs_ready (fs w) [] (resolve p) → mkdir p w = (Returned tt, w).
Proof.
  intros Hr. unfold mkdir, fs_update, Fs.mkdir_parents.
  rewrite (mkdir_from_ready _ _ _ _ Hr). by rewrite set_fs_id.
Qed.

(** What [ensure_dirs] leaves behind: the same regular files, the two storage
    directories and their ancestors, and no other change. *)
Lemma ensure_dirs_inv w r w' :
  ensure_dirs w = (r, w') →
  ∃ f', w' = set_fs f' w ∧ fs w ⊆ f' ∧
        (∀ k, file_at f' k = file_at (fs w) k) ∧
        (∀ k, f' !! k = fs w !! k ∨
              (fs w !! k = None ∧ f' !! k = Some Dir ∧
               (k `prefix_of` raw_dir_key ∨ k `prefix_of` proc_dir_key))) ∧
        (r = Returned tt → dirs_ready f' [] raw_dir_key ∧ dirs_ready f' [] proc_dir_key).
Proof.
  unfold ensure_dirs, mbind, IO_bind.
  destruct (mkdir RAW_DIR w) as [r1 w1] eqn:H1.
  apply mkdir_inv in H1 as [(f1 & Hm1 & -> & ->)|(e & -> & ->)].
  2:{ intros [= <- <-]. exists (fs w). rewrite set_fs_id.
      repeat split; try done. by left. }
  rewrite resolve_RAW_DIR in Hm1.
  pose proof (file_at_mkdir _ _ _ _ Hm1) as Hfile1.
  apply mkdir_from_returned in Hm1 as (Hsub1 & Hr1 & Hk1).
  destruct (mkdir PROC_DIR (set_fs f1 w)) as [r2 w2] eqn:H2.
  apply mkdir_inv in H2 as [(f2 & Hm2 & -> & ->)|(e & -> & ->)]; intros [= <- <-].
  - rewrite resolve_PROC_DIR in Hm2. simpl in Hm2.
    pose proof (file_at_mkdir _ _ _ _ Hm2) as Hfile2.
    apply mkdir_from_returned in Hm2 as (Hsub2 & Hr2 & Hk2).
    exists f2. split; [done|]. split; [by etrans|].
    split; [intros k; by rewrite Hfile2|]. split.
    + intros k. destruct (Hk2 k) as [Heq|(Hnone & Hdir & t & _ & Hpre & ->)].
      * rewrite Heq. destruct (Hk1 k) as [?|(? & ? & t & _ & ? & ->)]; [by left|].
        right. eauto.
      * right. split; [|eauto].
        destruct (fs w !! ([] ++ t)) eqn:Hw; [|done].
        eapply lookup_weaken in Hw; [|exact Hsub1]. congruence.
    + intros _. split; [|done]. by eapply dirs_ready_weaken.
  - exists f1. split; [done|]. split; [done|]. split; [done|]. split; [|done].
    intros k. destruct (Hk1 k) as [?|(? & ? & t & _ & ? & ->)]; [by left|].
    right. eauto.
Qed.

Lemma ensure_dirs_ready w :
  dirs_ready (fs w) [] raw_dir_key → dirs_ready (fs w) [] proc_dir_key →
  ensure_dirs w = (Returned tt, w).
Proof.
  intros Hraw Hproc. unfold ensure_dirs.
  erewrite bind_returned; [|apply mkdir_ready; by rewrite resolve_RAW_DIR].
  apply mkdir_ready. by rewrite resolve_PROC_DIR.
Qed.

(** Two locations below the storage directories are never on the way to
    those directories. *)
Lemma raw_entry_not_prefix c k :
  k = raw_dir_key ∨ k = proc_dir_key → ¬ (raw_dir_key ++ [c]) `prefix_of` k.
Proof.
  unfold raw_dir_key, proc_dir_key.
  intros [->| ->]; rewrite <- app_assoc; intros Hpre%prefix_app_inv.
  - apply prefix_length in Hpre. simpl in Hpre. lia.
  - by apply prefix_cons_inv_2, prefix_cons_inv_1 in Hpre.
Qed.

Lemma proc_entry_not_prefix c k :
  k = raw_dir_key ∨ k = proc_dir_key → ¬ (proc_dir_key ++ [c]) `prefix_of` k.
Proof.
  unfold raw_dir_key, proc_dir_key.
  intros [->| ->]; rewrite <- app_assoc; intros Hpre%prefix_app_inv.
  - by apply prefix_cons_inv_2, prefix_cons_inv_1 in Hpre.
  - apply prefix_length in Hpre. simpl in Hpre. lia.
Qed.

Lemma raw_entry_ne_proc_entry c c' : raw_dir_key ++ [c] ≠ proc_dir_key ++ [c'].
Proof.
  unfold raw_dir_key, proc_dir_key. rewrite <- !app_assoc.
  intros Heq%app_inv_head. apply (f_equal length) in Heq. simpl in Heq. lia.
Qed.

Lemma read_bytes_file p w data :
  Fs.node_at (fs w) (resolve p) = Some (File data) → read_bytes p w = (Returned data, w).
Proof. intros Hn. unfold read_bytes, Fs.read. by rewrite Hn. Qed.

Lemma read_bytes_inv p w data w' :
  read_bytes p w = (Returned data, w') →
  Fs.node_at (fs w) (resolve p) = Some (File data) ∧ w' = w.
Proof.
  unfold read_bytes, Fs.read. destruct (Fs.node_at _ _) as [[d|]|]; by intros [= <- <-].
Qed.

Lemma write_bytes_inv p data w w' :
  write_bytes p data w = (Returned tt, w') →
  Fs.node_at (fs w) (resolve p) ≠ Some Dir ∧
  w' = set_fs (<[resolve p := File data]> (fs w)) w.
Proof.
  unfold write_bytes, fs_update, Fs.write.
  destruct (Fs.node_at (fs w) (resolve p)) as [[d|]|];
    destruct (Fs.node_at (fs w) (removelast (resolve p))) as [[d'|]|];
    intros [= <-]; done.
Qed.

Lemma write_bytes_below p k c data w :
  resolve p = k ++ [c] → dirs_ready (fs w) [] k → fs w !! (k ++ [c]) ≠ Some Dir →
  write_bytes p data w = (Returned tt, set_fs (<[k ++ [c] := File data]> (fs w)) w).
Proof.
  intros Hp Hr Hnd. unfold write_bytes, fs_update.
  by rewrite Hp, (write_returned _ _ _ _ _ Hr Hnd).
Qed.

Lemma sha256_file_file path w data :
  Fs.node_at (fs w) (resolve path) = Some (File data) →
  sha256_file path w = (Returned (Sha256.hexdigest data), w).
Proof.
  intros Hn. unfold sha256_file.
  erewrite bind_returned; [|by apply read_bytes_file].
  unfold mret, IO_ret, Hashlib.hexdigest. by rewrite hash_chunks_fed.
Qed.

Lemma sha256_file_inv path w digest w' :
  sha256_file path w = (Returned digest, w') →
  ∃ data, Fs.node_at (fs w) (resolve path) = Some (File data) ∧
          digest = Sha256.hexdigest data ∧ w' = w.
Proof.
  intros (data & w1 & [Hn ->]%read_bytes_inv & Hret)%bind_returned_inv.
  exists data.
  unfold mret, IO_ret, Hashlib.hexdigest in Hret. rewrite hash_chunks_fed in Hret by done.
  by injection Hret as <- <-.
Qed.

End Steps.

(** ** Readers leave the world alone *)

Definition reads_only {A} (m : IO A) : Prop := ∀ w r w', m w = (r, w') → w' = w.

Lemma reads_only_bind {A B} (m : IO A) (k : A → IO B) :
  reads_only m → (∀ a, reads_only (k a)) → reads_only (m ≫= k).
Proof.
  intros Hm Hk w r w'. unfold mbind, IO_bind.
  destruct (m w) as [[e|a] w1] eqn:Hmw; apply Hm in Hmw as ->.
  - by intros [= _ <-].
  - apply Hk.
Qed.

Lemma reads_only_ret {A} (a : A) : reads_only (mret a).
Proof. by intros w r w' [= _ <-]. Qed.

Lemma reads_only_raise {A} e : reads_only (raise (A := A) e).
Proof. by intros w r w' [= _ <-]. Qed.

Lemma reads_only_of_outcome {A} (r : outcome A) : reads_only (of_outcome r).
Proof. by intros w r' w' [= _ <-]. Qed.

Section Record.
Context `{Env}.

Lemma reads_only_read_bytes p : reads_only (read_bytes p).
Proof. by intros w r w' [= _ <-]. Qed.

Lemma reads_only_read_any path sheet : reads_only (read_any path sheet).
Proof.
  assert (∀ d, reads_only (read_with d path)) as Hwith.
  { intros d. apply reads_only_bind; [apply reads_only_read_bytes|]. intros content.
    apply reads_only_bind; [apply reads_only_of_outcome|]. intros df.
    apply reads_only_ret. }
  unfold read_any. repeat case_bool_decide; try apply Hwith; [|apply reads_only_raise].
  apply reads_only_bind; [apply reads_only_read_bytes|]. intros content.
  apply reads_only_bind; [apply reads_only_of_outcome|]. intros sheets.
  destruct sheet as [s|]; [|apply reads_only_ret].
  destruct (dict_get sheets s); [apply reads_only_ret|apply reads_only_raise].
Qed.

(** *** The copy *)

Lemma copy_to_raw_inv src c w w' :
  plain_name c → copy_to_raw src (RAW_DIR // c) w = (Returned tt, w') →
  (resolve src ≠ raw_dir_key ++ [c] ∧
   ∃ data, Fs.node_at (fs w) (resolve src) = Some (File data) ∧
           w' = set_fs (<[raw_dir_key ++ [c] := File data]> (fs w)) w)
  ∨ (resolve src = raw_dir_key ++ [c] ∧ w' = w).
Proof.
  intros Hc. unfold copy_to_raw. rewrite (resolve_in_RAW_DIR c Hc).
  case_bool_decide as Hne.
  - intros (data & w1 & [Hsrc ->]%read_bytes_inv & [_ Hw]%write_bytes_inv)%bind_returned_inv.
    rewrite (resolve_in_RAW_DIR c Hc) in Hw. left. eauto.
  - intros [= <-]. right. split; [|done].
    by destruct (decide (resolve src = raw_dir_key ++ [c])).
Qed.

Lemma copy_to_raw_returned src c w data :
  plain_name c → dirs_ready (fs w) [] raw_dir_key →
  Fs.node_at (fs w) (resolve src) = Some (File data) →
  fs w !! (raw_dir_key ++ [c]) ≠ Some Dir →
  copy_to_raw src (RAW_DIR // c) w
  = (Returned tt, set_fs (<[raw_dir_key ++ [c] := File data]> (fs w)) w).
Proof.
  intros Hc Hr Hsrc Hnd. unfold copy_to_raw. rewrite (resolve_in_RAW_DIR c Hc).
  case_bool_decide as Hne.
  - erewrite bind_returned; [|by apply read_bytes_file].
    apply write_bytes_below; [by apply resolve_in_RAW_DIR|done..].
  - assert (resolve src = raw_dir_key ++ [c]) as Heq
      by by destruct (decide (resolve src = raw_dir_key ++ [c])).
    rewrite Heq, node_at_snoc in Hsrc.
    by rewrite insert_id, set_fs_id.
Qed.

(** *** The metadata common to both modes *)

Definition tick (w : World) : World :=
  mkWorld (fs w) (S (clock_reads w)) (stdout w) (stderr w).

Definition base_record (source_path : Path) (c : string) (data : list byte) (now : string)
    : list (string * json) :=
  [("raw_file", JStr (Pathlib.to_string (mkPath false ["data"; "raw"; c])));
   ("original_path", JStr (Pathlib.to_string source_path));
   ("format", JStr (sniff_format (RAW_DIR // c)));
   ("sha256", JStr (Sha256.hexdigest data));
   ("ingested_at", JStr now)].

Lemma base_meta_returned src c w data :
  plain_name c → Fs.node_at (fs w) (raw_dir_key ++ [c]) = Some (File data) →
  base_meta src (RAW_DIR // c) w
  = (Returned (base_record src c data (utc_clock (clock_reads w))), tick w).
Proof.
  intros Hc Hraw. unfold base_meta.
  erewrite bind_returned; [|by apply relative_in_RAW_DIR].
  erewrite bind_returned; [|apply sha256_file_file; by rewrite resolve_in_RAW_DIR].
  done.
Qed.

Lemma base_meta_inv src c w meta w' :
  plain_name c → base_meta src (RAW_DIR // c) w = (Returned meta, w') →
  ∃ data, Fs.node_at (fs w) (raw_dir_key ++ [c]) = Some (File data) ∧
          meta = base_record src c data (utc_clock (clock_reads w)) ∧ w' = tick w.
Proof.
  intros Hc. unfold base_meta.
  erewrite bind_returned; [|by apply relative_in_RAW_DIR].
  intros (digest & w1 & (data & Hraw & -> & ->)%sha256_file_inv & Hrest)%bind_returned_inv.
  rewrite (resolve_in_RAW_DIR c Hc) in Hraw. exists data. split; [done|].
  by injection Hrest as <- <-.
Qed.

(** *** The sidecar *)

Lemma write_metadata_inv meta c w w' :
  plain_name c → dirs_ready (fs w) [] proc_dir_key →
  write_metadata meta (PROC_DIR // c) w = (Returned tt, w') →
  w' = set_fs (<[proc_dir_key ++ [c] :=
                   File (String.list_byte_of_string (Json.dumps meta))]> (fs w)) w.
Proof.
  intros Hc Hr. unfold write_metadata. rewrite (parent_joins_plain _ _ Hc).
  erewrite bind_returned; [|apply mkdir_ready; by rewrite resolve_PROC_DIR].
  unfold write_text. intros [_ ->]%write_bytes_inv. by rewrite (resolve_in_PROC_DIR c Hc).
Qed.


End Record.

(** ** Conversion and the whole of [ingest_one] *)

(** Lines 139-140 on a frame. *)
Definition stamp (df : DataFrame) (source_file ingested_at : string) : DataFrame :=
  df_setitem (df_setitem df (LStr "source_file") (SStr source_file))
             (LStr "ingested_at") (SStr ingested_at).

Lemma nrows_setitem df key v : nrows (df_setitem df key v) = nrows df.
Proof. unfold df_setitem. by case_bool_decide. Qed.

Lemma nrows_stamp df c now : nrows (stamp df c now) = nrows df.
Proof. unfold stamp. by rewrite !nrows_setitem. Qed.

Section Whole.
Context `{Env}.

(** The JSON text of a path below the processed directory. *)
Definition processed_rel (c : string) : json :=
  JStr (Pathlib.to_string (mkPath false ["data"; "processed"; "ingested"; c])).

(** Lines 144-146 on the record. *)
Definition converted_record (meta : list (string * json)) (stem : string) (df : DataFrame)
    : list (string * json) :=
  dict_setitem
    (dict_setitem
       (dict_setitem meta "parquet" (processed_rel (stem +:+ ".parquet")))
       "rows" (JInt (Z.of_nat (nrows df))))
    "columns" (JList (str_of_label <$> (fst <$> columns df))).

Lemma plain_parquet c : plain_name c → plain_name (Pathlib.stem (RAW_DIR // c) +:+ ".parquet").
Proof.
  intros Hc. apply plain_stem_ext; [|done|simpl; lia].
  rewrite (name_joins_plain _ _ Hc). apply Hc.
Qed.

Lemma plain_meta_json c :
  plain_name c → plain_name (Pathlib.stem (RAW_DIR // c) +:+ ".meta.json").
Proof.
  intros Hc. apply plain_stem_ext; [|done|simpl; lia].
  rewrite (name_joins_plain _ _ Hc). apply Hc.
Qed.

Lemma convert_inv c sheet now meta w meta' w' :
  plain_name c → dirs_ready (fs w) [] proc_dir_key →
  convert (RAW_DIR // c) sheet now meta w = (Returned meta', w') →
  ∃ df pq,
    read_any (RAW_DIR // c) sheet w = (Returned (PyFrame df), w) ∧
    to_parquet_bytes (stamp df c now) = Returned pq ∧
    w' = set_fs (<[proc_dir_key ++ [Pathlib.stem (RAW_DIR // c) +:+ ".parquet"] :=
                     File pq]> (fs w)) w ∧
    meta' = converted_record meta (Pathlib.stem (RAW_DIR // c)) (stamp df c now).
Proof.
  intros Hc Hr. pose proof (plain_parquet c Hc) as Hpq. unfold convert.
  intros (obj & w1 & Hread & Hrest)%bind_returned_inv.
  pose proof (reads_only_read_any _ _ _ _ _ Hread) as ->.
  rewrite (name_joins_plain _ _ Hc) in Hrest.
  apply bind_returned_inv in Hrest as ([] & w2 & Hwrite & Hrest).
  unfold write_parquet, out_parquet_of in Hwrite.
  rewrite (parent_joins_plain _ _ Hpq) in Hwrite.
  erewrite bind_returned in Hwrite; [|apply mkdir_ready; by rewrite resolve_PROC_DIR].
  destruct obj as [df|d]; [|done]. simpl in Hwrite.
  apply bind_returned_inv in Hwrite as (pq & w3 & Henc & [_ ->]%write_bytes_inv).
  injection Henc as Henc <-.
  unfold out_parquet_of in Hrest.
  erewrite bind_returned in Hrest; [|by apply relative_in_PROC_DIR].
  simpl in Hrest. injection Hrest as <- <-.
  exists df, pq. rewrite (resolve_in_PROC_DIR _ Hpq). done.
Qed.

(** Everything a successful ingestion of a local file did. *)
Lemma ingest_one_returned_inv src sheet skip w meta w' :
  plain_name (Pathlib.name src) →
  ingest_one src None sheet skip w = (Returned meta, w') →
  let c := Pathlib.name src in
  let stem := Pathlib.stem (RAW_DIR // c) in
  let now := utc_clock (clock_reads w) in
  ∃ f1 data record,
    ensure_dirs w = (Returned tt, set_fs f1 w) ∧
    file_at (fs w) (resolve src) = Some data ∧
    let fc := <[raw_dir_key ++ [c] := File data]> f1 in
    meta = dict_setitem record "metadata" (processed_rel (stem +:+ ".meta.json")) ∧
    (if skip
     then record = base_record src c data now ∧
          fs w' = <[proc_dir_key ++ [stem +:+ ".meta.json"] :=
                      File (String.list_byte_of_string (Json.dumps record))]> fc
     else ∃ df pq,
          read_any (RAW_DIR // c) sheet (tick (set_fs fc w))
            = (Returned (PyFrame df), tick (set_fs fc w)) ∧
          to_parquet_bytes (stamp df c now) = Returned pq ∧
          record = converted_record (base_record src c data now) stem (stamp df c now) ∧
          fs w' = <[proc_dir_key ++ [stem +:+ ".meta.json"] :=
                      File (String.list_byte_of_string (Json.dumps record))]>
                    (<[proc_dir_key ++ [stem +:+ ".parquet"] := File pq]> fc)).
Proof.
  intros Hc Hrun c stem now. unfold ingest_one in Hrun.
  apply bind_returned_inv in Hrun as ([] & w1 & Hdirs & Hrun).
  destruct (ensure_dirs_inv _ _ _ Hdirs) as (f1 & -> & Hsub & Hfile & _ & Hready).
  destruct (Hready eq_refl) as [Hraw Hproc].
  apply bind_returned_inv in Hrun as (found & w2 & Hex & Hrun).
  injection Hex as <- <-. destruct (bool_decide _); [|done]. simpl in Hrun.
  unfold raw_path_of, target_name in Hrun. fold c in Hrun.
  apply bind_returned_inv in Hrun as ([] & wc & Hcopy & Hrun).
  unfold record_ingestion in Hrun.
  apply bind_returned_inv in Hrun as (meta0 & wb & Hbase & Hrun).
  apply (base_meta_inv _ _ _ _ _ Hc) in Hbase as (data & Hstored & -> & ->).
  assert (wc = set_fs (<[raw_dir_key ++ [c] := File data]> f1) w
          ∧ Fs.node_at f1 (resolve src) = Some (File data)) as [-> Hsrc].
  { apply (copy_to_raw_inv _ _ _ _ Hc) in Hcopy
      as [(Hne & d & Hd & ->)|[Heq ->]]; simpl in *.
    - rewrite node_at_snoc, lookup_insert_eq in Hstored. by injection Hstored as <-.
    - split; [|by rewrite Heq]. rewrite node_at_snoc in Hstored.
      by rewrite insert_id. }
  exists f1, data.
  assert (file_at (fs w) (resolve src) = Some data) as Horig.
  { rewrite <- Hfile. by apply file_at_node. }
  set (fc := <[raw_dir_key ++ [c] := File data]> f1) in *.
  assert (dirs_ready fc [] proc_dir_key) as Hproc'.
  { apply dirs_ready_insert; [done|]. apply raw_entry_not_prefix. by right. }
  pose proof (plain_meta_json c Hc) as Hmj. pose proof (plain_parquet c Hc) as Hpq.
  apply bind_returned_inv in Hrun as (record & wr & Hconv & Hrun).
  exists record. split; [done|]. split; [done|].
  unfold meta_path_of in Hrun.
  apply bind_returned_inv in Hrun as ([] & wm & Hmeta & Hrun).
  erewrite bind_returned in Hrun; [|by apply relative_in_PROC_DIR].
  injection Hrun as <- <-. split; [done|].
  destruct skip; simpl in Hconv.
  - injection Hconv as <- <-.
    apply write_metadata_inv in Hmeta as ->; done.
  - apply convert_inv in Hconv as (df & pq & Hread & Henc & -> & ->); [|done..].
    exists df, pq. split; [done|]. split; [done|]. split; [done|].
    apply write_metadata_inv in Hmeta as ->; [done..|]. simpl.
    apply dirs_ready_insert; [done|]. apply proc_entry_not_prefix. by right.
Qed.

End Whole.

(** ** Dictionaries *)

Lemma dict_get_setitem_eq {V} (d : list (string * V)) k v :
  dict_get (dict_setitem d k v) k = Some v.
Proof.
  induction d as [|[k' x] d IH]; simpl.
  - by rewrite bool_decide_eq_true_2.
  - case_bool_decide as Hk; simpl; [by rewrite bool_decide_eq_true_2|].
    by rewrite bool_decide_eq_false_2.
Qed.

Lemma dict_get_setitem_ne {V} (d : list (string * V)) k k' v :
  k ≠ k' → dict_get (dict_setitem d k v) k' = dict_get d k'.
Proof.
  intros Hne. induction d as [|[k0 x] d IH]; simpl.
  - by rewrite bool_decide_eq_false_2.
  - case_bool_decide as Hk; simpl; [subst k0|by rewrite IH].
    by rewrite !bool_decide_eq_false_2.
Qed.

Lemma dict_keys_setitem {V} (d : list (string * V)) k v :
  (dict_setitem d k v).*1 = if bool_decide (k ∈ d.*1) then d.*1 else d.*1 ++ [k].
Proof.
  induction d as [|[k0 x] d IH]; [done|].
  cbn [dict_setitem]. destruct (decide (k0 = k)) as [->|Hk].
  - rewrite (bool_decide_eq_true_2 (k = k)) by done. rewrite !fmap_cons. cbn [fst].
    by rewrite bool_decide_eq_true_2 by apply list_elem_of_here.
  - rewrite (bool_decide_eq_false_2 (k0 = k)) by done. rewrite !fmap_cons, IH. cbn [fst].
    destruct (decide (k ∈ d.*1)) as [Hin|Hout].
    + rewrite !bool_decide_eq_true_2; [done|by apply list_elem_of_further|done].
    + rewrite !bool_decide_eq_false_2; [done| |done].
      intros [?|?]%elem_of_cons; congruence.
Qed.

(** ** Where the files of a local ingestion go *)

Lemma resolve_raw_path `{Env} src :
  plain_name (Pathlib.name src) →
  resolve (raw_path_of src None) = raw_dir_key ++ [Pathlib.name src].
Proof. intros Hc. unfold raw_path_of, target_name. by apply resolve_in_RAW_DIR. Qed.

Lemma resolve_meta_path `{Env} src :
  plain_name (Pathlib.name src) →
  resolve (meta_path_of (raw_path_of src None))
  = proc_dir_key ++ [Pathlib.stem (RAW_DIR // Pathlib.name src) +:+ ".meta.json"].
Proof.
  intros Hc. unfold meta_path_of, raw_path_of, target_name.
  apply resolve_in_PROC_DIR. by apply plain_meta_json.
Qed.

Lemma resolve_out_parquet `{Env} src :
  plain_name (Pathlib.name src) →
  resolve (out_parquet_of (raw_path_of src None))
  = proc_dir_key ++ [Pathlib.stem (RAW_DIR // Pathlib.name src) +:+ ".parquet"].
Proof.
  intros Hc. unfold out_parquet_of, raw_path_of, target_name.
  apply resolve_in_PROC_DIR. by apply plain_parquet.
Qed.


(** ** From the call to the end of the copy *)

Lemma name_determines_suffix p q :
  Pathlib.name p = Pathlib.name q →
  Pathlib.suffix p = Pathlib.suffix q ∧ sniff_format p = sniff_format q.
Proof.
  intros Hn. assert (Pathlib.suffix p = Pathlib.suffix q) as Hs
    by (unfold Pathlib.suffix; by rewrite Hn).
  split; [done|]. unfold sniff_format. by rewrite Hs.
Qed.

Section Prefix.
Context `{Env}.

(** A local file that is there, whose raw destination is free of a directory,
    reaches [record_ingestion] with its bytes stored in raw storage. *)
Lemma ingest_one_to_record src sheet skip w w1 data :
  plain_name (Pathlib.name src) →
  ensure_dirs w = (Returned tt, w1) →
  file_at (fs w) (resolve src) = Some data →
  Fs.node_at (fs w) (resolve (raw_path_of src None)) ≠ Some Dir →
  let c := Pathlib.name src in
  let wc := set_fs (<[raw_dir_key ++ [c] := File data]> (fs w1)) w in
  ingest_one src None sheet skip w = record_ingestion src (RAW_DIR // c) sheet skip wc ∧
  dirs_ready (fs wc) [] proc_dir_key ∧
  (∀ k, k ≠ raw_dir_key ++ [c] →
        ¬ k `prefix_of` raw_dir_key → ¬ k `prefix_of` proc_dir_key →
        fs wc !! k = fs w !! k).
Proof.
  intros Hc Hdirs Hsrc Hfree c wc.
  destruct (ensure_dirs_inv _ _ _ Hdirs) as (f1 & -> & Hsub & Hfile & Hk & Hready).
  destruct (Hready eq_refl) as [Hraw Hproc]. simpl in wc.
  rewrite (resolve_raw_path _ Hc), node_at_snoc in Hfree. fold c in Hfree.
  assert (Fs.node_at f1 (resolve src) = Some (File data)) as Hsrc1.
  { apply file_at_node. by rewrite Hfile. }
  assert (f1 !! (raw_dir_key ++ [c]) ≠ Some Dir) as Hfree1.
  { destruct (Hk (raw_dir_key ++ [c])) as [->|(_ & _ & [Hp|Hp])]; [done|..];
      by apply raw_entry_not_prefix in Hp; auto. }
  split; [|split].
  - unfold ingest_one. erewrite bind_returned; [|exact Hdirs].
    erewrite bind_returned; [|reflexivity]. simpl. rewrite Hsrc1.
    rewrite bool_decide_eq_true_2 by eauto. simpl.
    unfold raw_path_of, target_name. fold c.
    erewrite bind_returned; [|by apply copy_to_raw_returned]. done.
  - apply dirs_ready_insert; [done|]. apply raw_entry_not_prefix. by right.
  - intros k Hne Hnr Hnp. unfold wc. simpl. rewrite lookup_insert_ne by done.
    destruct (Hk k) as [->|(_ & _ & [Hp|Hp])]; done.
Qed.

End Prefix.

(** ** What can be raised *)

Definition raises_only {A} (P : exn → Prop) (m : IO A) : Prop :=
  ∀ w e w', m w = (Raised e, w') → P e.

Lemma raises_only_bind {A B} P (m : IO A) (k : A → IO B) :
  raises_only P m → (∀ a, raises_only P (k a)) → raises_only P (m ≫= k).
Proof.
  intros Hm Hk w e w'. unfold mbind, IO_bind.
  destruct (m w) as [[e1|a] w1] eqn:Hmw.
  - intros [= <- <-]. by eapply Hm.
  - apply Hk.
Qed.




(** The errors of the operating system. *)
Definition os_error (e : exn) : Prop :=
  match e with
  | FileNotFoundError _ | FileExistsError _ | IsADirectoryError _ | NotADirectoryError _ => True
  | _ => False
  end.





Lemma mkdir_from_raised shown seen todo f e :
  Fs.mkdir_from shown seen todo f = Raised e → os_error e.
Proof.
  revert seen f. induction todo as [|c rest IH]; intros seen f; simpl; [done|].
  destruct (f !! (seen ++ [c])) as [[d|]|]; [|apply IH..].
  intros [= <-]. by destruct rest.
Qed.

Section Raised.
Context `{Env}.

Lemma raises_only_fs_update op :
  (∀ f e, op f = Raised e → os_error e) → raises_only os_error (fs_update op).
Proof.
  intros Hop w e w'. unfold fs_update. destruct (op (fs w)) as [e'|f'] eqn:Hf; [|done].
  intros [= <- _]. by eapply Hop.
Qed.

Lemma raises_only_mkdir p : raises_only os_error (mkdir p).
Proof. apply raises_only_fs_update. intros f e. apply mkdir_from_raised. Qed.









End Raised.

(** * The properties of the specification *)

(** ** The format sniffer *)

(** Equality of extensions up to letter case. *)
Definition same_ignoring_case (a b : string) : Prop := Str.lower a = Str.lower b.

Global Instance same_ignoring_case_dec a b : Decision (same_ignoring_case a b).
Proof. unfold same_ignoring_case. apply _. Defined.



(** ** The copy into raw storage *)

(** C10. When the source resolves to the raw destination itself (a file
    already in raw storage, or one that was just downloaded there), the copy
    step does nothing at all: the world after it is the world before it, so
    the raw file keeps its bytes, and [ingest_one] is the same computation as
    the one without the copy step.  The destination of a download under a
    non-empty name is such a source. *)
Theorem copy_skipped_at_raw_destination `{Env} (source_path : Path)
    (raw_name excel_sheet : option string) (skip_parquet : bool) (w : World) :
  let raw_path := raw_path_of source_path raw_name in
  resolve source_path = resolve raw_path →
  copy_to_raw source_path raw_path w = (Returned tt, w) ∧
  (∀ w1, ensure_dirs w = (Returned tt, w1) →
         file_at (fs w1) (resolve raw_path) = file_at (fs w) (resolve raw_path)) ∧
  ingest_one source_path raw_name excel_sheet skip_parquet w
  = (ensure_dirs ;;
     found ← path_exists source_path;
     if negb found then raise (FileNotFoundError (Pathlib.to_string source_path))
     else record_ingestion source_path raw_path excel_sheet skip_parquet) w ∧
  (∀ fname, Str.truthy fname = true →
            raw_path_of (RAW_DIR // fname) (Some fname) = RAW_DIR // fname).
Proof.
  intros raw_path Hsame.
  assert (∀ w0, copy_to_raw source_path raw_path w0 = (Returned tt, w0)) as Hcopy.
  { intros w0. unfold copy_to_raw. by rewrite bool_decide_eq_false_2 by by intros []. }
  split; [done|]. split; [|split].
  - intros w1 Hdirs. apply ensure_dirs_inv in Hdirs as (f1 & -> & _ & Hfile & _). apply Hfile.
  - unfold ingest_one, mbind, IO_bind.
    destruct (ensure_dirs w) as [[e|[]] w1]; [done|].
    destruct (path_exists source_path w1) as [[e|[]] w2]; [done| |done]. simpl.
    fold raw_path. by rewrite Hcopy.
  - intros fname Hname. unfold raw_path_of, target_name. by rewrite Hname.
Qed.

(** The instance of C10 at /srv/sp/data/raw/t.csv, re-ingested from raw
    storage. *)
Lemma copy_skipped_witness :
  copy_to_raw (H := Demo.offline) (Pathlib.of_string "/srv/sp/data/raw/t.csv")
    (raw_path_of (H := Demo.offline) (Pathlib.of_string "/srv/sp/data/raw/t.csv") None)
    Demo.world0
  = (Returned tt, Demo.world0).
Proof.
  apply (copy_skipped_at_raw_destination (H := Demo.offline)
           (Pathlib.of_string "/srv/sp/data/raw/t.csv") None None false Demo.world0).
  reflexivity.
Defined.

(** ** The raw copy and its checksum *)

(** C1. A successful [ingest_one] of a local file leaves in raw storage a file
    whose bytes are those of the original input, and both the metadata record
    written to the sidecar and the returned record carry, as [sha256], the
    SHA-256 digest of the bytes the raw file holds. *)
Theorem ingest_one_raw_copy_and_checksum `{Env} (source_path : Path)
    (excel_sheet : option string) (skip_parquet : bool) (w w' : World)
    (meta : list (string * json)) (original : list byte) :
  plain_name (Pathlib.name source_path) →
  file_at (fs w) (resolve source_path) = Some original →
  ingest_one source_path None excel_sheet skip_parquet w = (Returned meta, w') →
  let raw_path := raw_path_of source_path None in
  file_at (fs w') (resolve raw_path) = Some original ∧
  ∃ stored record,
    file_at (fs w') (resolve raw_path) = Some stored ∧
    file_at (fs w') (resolve (meta_path_of raw_path))
      = Some (String.list_byte_of_string (Json.dumps record)) ∧
    dict_get record "sha256" = Some (JStr (Sha256.hexdigest stored)) ∧
    dict_get meta "sha256" = Some (JStr (Sha256.hexdigest stored)).
Proof.
  intros Hc Horig Hrun raw_path.
  destruct (ingest_one_returned_inv _ _ _ _ _ _ Hc Hrun)
    as (f1 & data & record & _ & Hdata & Hmeta & Hmode).
  rewrite Horig in Hdata. injection Hdata as <-.
  unfold raw_path. rewrite (resolve_raw_path _ Hc), (resolve_meta_path _ Hc).
  assert (file_at (fs w') (raw_dir_key ++ [Pathlib.name source_path]) = Some original
          ∧ file_at (fs w') (proc_dir_key ++
              [Pathlib.stem (RAW_DIR // Pathlib.name source_path) +:+ ".meta.json"])
            = Some (String.list_byte_of_string (Json.dumps record))
          ∧ dict_get record "sha256" = Some (JStr (Sha256.hexdigest original)))
    as (Hraw & Hside & Hsha).
  { rewrite !file_at_snoc. destruct skip_parquet.
    - destruct Hmode as [-> ->]. rewrite lookup_insert_eq.
      rewrite lookup_insert_ne by (symmetry; apply raw_entry_ne_proc_entry).
      by rewrite lookup_insert_eq.
    - destruct Hmode as (df & pq & _ & _ & -> & ->). rewrite lookup_insert_eq.
      rewrite !lookup_insert_ne by (symmetry; apply raw_entry_ne_proc_entry).
      by rewrite lookup_insert_eq. }
  split; [done|]. exists original, record. repeat split; try done.
  rewrite Hmeta. by rewrite dict_get_setitem_ne.
Qed.

(** The instance of C1 on the specification's example: /home/ana/t.csv,
    ingested with conversion. *)
Lemma ingest_one_raw_copy_witness :
  let run := ingest_one (H := Demo.offline) (Pathlib.of_string "t.csv") None None false
               Demo.world0 in
  file_at (fs run.2) ["srv"; "sp"; "data"; "raw"; "t.csv"]
  = Some (String.list_byte_of_string Demo.t_csv).
Proof.
  intros run.
  refine (proj1 (ingest_one_raw_copy_and_checksum (H := Demo.offline)
            (Pathlib.of_string "t.csv") None false Demo.world0 run.2
            (match run.1 with Returned m => m | Raised _ => [] end)
            (String.list_byte_of_string Demo.t_csv) _ _ _)).
  - by repeat split.
  - vm_compute. reflexivity.
  - apply run_returned. vm_compute. reflexivity.
Defined.

(** ** Rows and columns of the record *)

Lemma labels_setitem df key v :
  (columns (df_setitem df key v)).*1
  = if bool_decide (key ∈ (columns df).*1) then (columns df).*1 else (columns df).*1 ++ [key].
Proof.
  unfold df_setitem. case_bool_decide; simpl.
  - rewrite <- list_fmap_compose. apply list_fmap_ext. intros i [l col] _. simpl.
    by case_bool_decide.
  - by rewrite fmap_app.
Qed.

(** The provenance names that [ingest_one] has to append: those no decoded
    column carries already. *)
Definition missing_provenance (labels : list label) : list string :=
  (if bool_decide (LStr "source_file" ∈ labels) then [] else ["source_file"]) ++
  (if bool_decide (LStr "ingested_at" ∈ labels) then [] else ["ingested_at"]).

Lemma column_names_stamp df c now :
  str_of_label <$> (columns (stamp df c now)).*1
  = (str_of_label <$> (columns df).*1) ++ missing_provenance (columns df).*1.
Proof.
  unfold stamp, missing_provenance. rewrite !labels_setitem.
  destruct (decide (LStr "source_file" ∈ (columns df).*1)) as [Hs|Hs];
    destruct (decide (LStr "ingested_at" ∈ (columns df).*1)) as [Hi|Hi].
  - rewrite !(bool_decide_eq_true_2 _ Hs), !(bool_decide_eq_true_2 _ Hi).
    by rewrite app_nil_r.
  - rewrite !(bool_decide_eq_true_2 _ Hs), !(bool_decide_eq_false_2 _ Hi).
    by rewrite fmap_app.
  - rewrite !(bool_decide_eq_false_2 _ Hs), !(bool_decide_eq_true_2 _ Hi).
    rewrite bool_decide_eq_true_2 by (apply elem_of_app; by left).
    by rewrite fmap_app, app_nil_r.
  - rewrite !(bool_decide_eq_false_2 _ Hs), !(bool_decide_eq_false_2 _ Hi).
    rewrite bool_decide_eq_false_2.
    + by rewrite !fmap_app, <- app_assoc.
    + intros [?|Hin]%elem_of_app; [done|]. by apply list_elem_of_singleton in Hin.
Qed.

(** C2, as the code has it.  After a successful ingestion with conversion, the
    record's [rows] is the row count of the frame decoded from the raw file,
    and its [columns] are the decoded column names followed by [source_file]
    and [ingested_at], in that order, each appended only when no decoded
    column has that name already (such a column is overwritten where it
    stands).  When neither name occurs among the decoded columns, both are
    appended last. *)
Theorem ingest_one_rows_and_columns `{Env} (source_path : Path)
    (excel_sheet : option string) (w w' : World) (meta : list (string * json)) :
  plain_name (Pathlib.name source_path) →
  ingest_one source_path None excel_sheet false w = (Returned meta, w') →
  let raw_path := raw_path_of source_path None in
  ∃ (decoded : DataFrame) (reading : World) (record : list (string * json)),
    file_at (fs reading) (resolve raw_path) = file_at (fs w) (resolve source_path) ∧
    read_any raw_path excel_sheet reading = (Returned (PyFrame decoded), reading) ∧
    file_at (fs w') (resolve (meta_path_of raw_path))
      = Some (String.list_byte_of_string (Json.dumps record)) ∧
    let labels := (columns decoded).*1 in
    let names := str_of_label <$> labels in
    dict_get record "rows" = Some (JInt (Z.of_nat (nrows decoded))) ∧
    dict_get record "columns" = Some (JList (names ++ missing_provenance labels)) ∧
    (LStr "source_file" ∉ labels → LStr "ingested_at" ∉ labels →
     dict_get record "columns" = Some (JList (names ++ ["source_file"; "ingested_at"]))).
Proof.
  intros Hc Hrun raw_path.
  destruct (ingest_one_returned_inv _ _ _ _ _ _ Hc Hrun)
    as (f1 & data & record & _ & Hdata & Hmeta & df & pq & Hread & _ & -> & Hfs).
  exists df. eexists. eexists. split; [|split; [exact Hread|]].
  { unfold raw_path. rewrite (resolve_raw_path _ Hc), Hdata, file_at_snoc. simpl.
    by rewrite lookup_insert_eq. }
  split.
  { unfold raw_path. rewrite (resolve_meta_path _ Hc), Hfs, file_at_snoc.
    by rewrite lookup_insert_eq. }
  assert (dict_get
            (converted_record
               (base_record source_path (Pathlib.name source_path) data
                  (utc_clock (clock_reads w)))
               (Pathlib.stem (RAW_DIR // Pathlib.name source_path))
               (stamp df (Pathlib.name source_path) (utc_clock (clock_reads w))))
            "columns"
          = Some (JList ((str_of_label <$> (columns df).*1)
                         ++ missing_provenance (columns df).*1))) as Hcols.
  { unfold converted_record. by rewrite dict_get_setitem_eq, column_names_stamp. }
  split; [|split; [done|]].
  - unfold converted_record.
    rewrite dict_get_setitem_ne, dict_get_setitem_eq by done. by rewrite nrows_stamp.
  - intros Hs Hi. rewrite Hcols. unfold missing_provenance.
    by rewrite !bool_decide_eq_false_2.
Qed.

(** The specification's end-to-end example: /home/ana/t.csv holds a,b / 1,2 /
    3,4; the record says csv, two rows, and the columns a, b, source_file,
    ingested_at. *)
Example ingest_one_t_csv :
  let run := ingest_one (H := Demo.offline) (Pathlib.of_string "t.csv") None None false
               Demo.world0 in
  ∃ meta : list (string * json),
    run.1 = Returned meta ∧
    dict_get meta "format" = Some (JStr "csv") ∧
    dict_get meta "rows" = Some (JInt 2) ∧
    dict_get meta "columns" = Some (JList ["a"; "b"; "source_file"; "ingested_at"]).
Proof. intros run. eexists. split; [vm_compute; reflexivity|]. by repeat split. Qed.

(** The instance of the amended C2 on that example. *)
Lemma ingest_one_rows_and_columns_witness :
  let run := ingest_one (H := Demo.offline) (Pathlib.of_string "t.csv") None None false
               Demo.world0 in
  let raw_path := raw_path_of (H := Demo.offline) (Pathlib.of_string "t.csv") None in
  ∃ (decoded : DataFrame) (reading : World) (record : list (string * json)),
    file_at (fs reading) (resolve (H := Demo.offline) raw_path)
    = file_at (fs Demo.world0) (resolve (H := Demo.offline) (Pathlib.of_string "t.csv")) ∧
    read_any (H := Demo.offline) raw_path None reading = (Returned (PyFrame decoded), reading) ∧
    file_at (fs run.2) (resolve (H := Demo.offline) (meta_path_of (H := Demo.offline) raw_path))
    = Some (String.list_byte_of_string (Json.dumps record)) ∧
    let labels := (columns decoded).*1 in
    let names := str_of_label <$> labels in
    dict_get record "rows" = Some (JInt (Z.of_nat (nrows decoded))) ∧
    dict_get record "columns" = Some (JList (names ++ missing_provenance labels)) ∧
    (LStr "source_file" ∉ labels → LStr "ingested_at" ∉ labels →
     dict_get record "columns" = Some (JList (names ++ ["source_file"; "ingested_at"]))).
Proof.
  intros run raw_path.
  apply (ingest_one_rows_and_columns (H := Demo.offline)
           (Pathlib.of_string "t.csv") None Demo.world0 run.2
           (match run.1 with Returned m => m | Raised _ => [] end)).
  - by repeat split.
  - apply run_returned. vm_compute. reflexivity.
Defined.

(** C2 as the specification states it fails on a file that already has a
    column named [source_file]: for /home/ana/stamped.csv, whose header is
    source_file,b, the record lists three columns, not the two decoded ones
    followed by the two provenance names. *)
Lemma ingest_one_columns_counterexample :
  let run := ingest_one (H := Demo.offline) (Pathlib.of_string "stamped.csv") None None false
               Demo.world0 in
  let raw_path := raw_path_of (H := Demo.offline) (Pathlib.of_string "stamped.csv") None in
  ∃ (decoded : DataFrame) (meta : list (string * json)),
    run.1 = Returned meta ∧
    (read_any (H := Demo.offline) raw_path None run.2).1 = Returned (PyFrame decoded) ∧
    dict_get meta "columns" = Some (JList ["source_file"; "b"; "ingested_at"]) ∧
    dict_get meta "columns"
      ≠ Some (JList ((str_of_label <$> (columns decoded).*1) ++ ["source_file"; "ingested_at"])).
Proof.
  intros run raw_path. do 2 eexists. split; [vm_compute; reflexivity|].
  split; [vm_compute; reflexivity|]. split; [reflexivity|]. by vm_compute.
Qed.

(** ** An extension outside the recognised set *)

Lemma read_any_unknown `{Env} path sheet w :
  sniff_format path = "unknown" →
  read_any path sheet w
  = (Raised (ValueError ("Unsupported file format: " +:+ Pathlib.name path +:+
                         " (" +:+ Pathlib.suffix path +:+ ")")), w).
Proof. intros Hfmt. unfold read_any. by rewrite Hfmt. Qed.

(** C3. Copy, then classify.  A local file whose extension is not recognised,
    ingested with conversion, is first copied into raw storage; then the
    reader raises the unsupported-format error, which names the file and its
    extension.  In the world the error leaves behind the raw copy holds the
    bytes of the original, the reader fails on it in the same way, and no
    other location differs from what [ensure_dirs] left: neither the
    standardized output nor the metadata record was written. *)
Theorem ingest_one_unknown_extension `{Env} (source_path : Path)
    (excel_sheet : option string) (w w1 : World) (data : list byte) :
  plain_name (Pathlib.name source_path) →
  sniff_format source_path = "unknown" →
  ensure_dirs w = (Returned tt, w1) →
  file_at (fs w) (resolve source_path) = Some data →
  let raw_path := raw_path_of source_path None in
  Fs.node_at (fs w) (resolve raw_path) ≠ Some Dir →
  let error := ValueError ("Unsupported file format: " +:+ Pathlib.name source_path +:+
                           " (" +:+ Pathlib.suffix source_path +:+ ")") in
  ∃ w',
    ingest_one source_path None excel_sheet false w = (Raised error, w') ∧
    file_at (fs w') (resolve raw_path) = Some data ∧
    read_any raw_path excel_sheet w' = (Raised error, w') ∧
    (∀ k, k ≠ resolve raw_path → fs w' !! k = fs w1 !! k) ∧
    file_at (fs w') (resolve (out_parquet_of raw_path))
    = file_at (fs w) (resolve (out_parquet_of raw_path)) ∧
    file_at (fs w') (resolve (meta_path_of raw_path))
    = file_at (fs w) (resolve (meta_path_of raw_path)).
Proof.
  intros Hc Hfmt Hdirs Hsrc raw_path Hraw error.
  destruct (ingest_one_to_record source_path excel_sheet false _ _ _ Hc Hdirs Hsrc Hraw)
    as (Hrun & Hready & Hframe).
  set (c := Pathlib.name source_path) in *.
  set (wc := set_fs (<[raw_dir_key ++ [c] := File data]> (fs w1)) w) in *.
  assert (resolve raw_path = raw_dir_key ++ [c]) as Hrk by apply (resolve_raw_path _ Hc).
  assert (raw_path = RAW_DIR // c) as Hrp by done.
  destruct (name_determines_suffix (RAW_DIR // c) source_path) as [Hsuffix Hsame];
    [by apply name_joins_plain|].
  assert (∀ w0, read_any raw_path excel_sheet w0 = (Raised error, w0)) as Hread.
  { intros w0. rewrite Hrp, read_any_unknown by by rewrite Hsame.
    unfold error. by rewrite Hsuffix, (name_joins_plain _ _ Hc). }
  exists (tick wc). split; [|split; [|split; [done|split; [|split]]]].
  - rewrite Hrun. unfold record_ingestion.
    erewrite bind_returned.
    2:{ apply base_meta_returned; [done|]. rewrite node_at_snoc. apply lookup_insert_eq. }
    simpl. apply bind_raised. unfold convert. apply bind_raised.
    rewrite <- Hrp. apply Hread.
  - rewrite Hrk, file_at_snoc. simpl. by rewrite lookup_insert_eq.
  - intros k Hk. simpl. rewrite Hrk in Hk. by rewrite lookup_insert_ne.
  - unfold raw_path. rewrite (resolve_out_parquet _ Hc), !file_at_snoc. simpl. rewrite Hframe; [done|..].
    + symmetry. apply raw_entry_ne_proc_entry.
    + apply proc_entry_not_prefix. by left.
    + apply proc_entry_not_prefix. by right.
  - unfold raw_path. rewrite (resolve_meta_path _ Hc), !file_at_snoc. simpl. rewrite Hframe; [done|..].
    + symmetry. apply raw_entry_ne_proc_entry.
    + apply proc_entry_not_prefix. by left.
    + apply proc_entry_not_prefix. by right.
Qed.

(** The instance of C3 at /home/ana/notes.txt. *)
Lemma ingest_one_unknown_extension_witness :
  let raw_path := raw_path_of (H := Demo.offline) (Pathlib.of_string "notes.txt") None in
  let error := ValueError "Unsupported file format: notes.txt (.txt)" in
  ∃ w',
    ingest_one (H := Demo.offline) (Pathlib.of_string "notes.txt") None None false Demo.world0
    = (Raised error, w') ∧
    file_at (fs w') (resolve (H := Demo.offline) raw_path)
    = Some (String.list_byte_of_string "hello") ∧
    read_any (H := Demo.offline) raw_path None w' = (Raised error, w') ∧
    (∀ k, k ≠ resolve (H := Demo.offline) raw_path →
          fs w' !! k = fs (ensure_dirs (H := Demo.offline) Demo.world0).2 !! k) ∧
    file_at (fs w') (resolve (H := Demo.offline) (out_parquet_of (H := Demo.offline) raw_path))
    = file_at (fs Demo.world0)
        (resolve (H := Demo.offline) (out_parquet_of (H := Demo.offline) raw_path)) ∧
    file_at (fs w') (resolve (H := Demo.offline) (meta_path_of (H := Demo.offline) raw_path))
    = file_at (fs Demo.world0)
        (resolve (H := Demo.offline) (meta_path_of (H := Demo.offline) raw_path)).
Proof.
  intros raw_path error.
  apply (ingest_one_unknown_extension (H := Demo.offline)
           (Pathlib.of_string "notes.txt") None Demo.world0
           (ensure_dirs (H := Demo.offline) Demo.world0).2
           (String.list_byte_of_string "hello")).
  - by repeat split.
  - reflexivity.
  - apply run_returned. vm_compute. reflexivity.
  - vm_compute. reflexivity.
  - by vm_compute.
Defined.

(** ** Excel without a sheet selector *)

Lemma read_any_excel `{Env} path sheet w data sheets :
  sniff_format path = "excel" →
  Fs.node_at (fs w) (resolve path) = Some (File data) →
  excel_sheets data = Returned sheets →
  read_any path sheet w
  = match sheet with
    | None => (Returned (PyDict (prod_map id VFrame <$> sheets)), w)
    | Some s =>
        match dict_get sheets s with
        | Some df => (Returned (PyFrame df), w)
        | None => (Raised (ValueError ("Worksheet named '" +:+ s +:+ "' not found")), w)
        end
    end.
Proof.
  intros Hfmt Hfile Hsheets. unfold read_any. rewrite Hfmt. simpl. unfold pd_read_excel.
  erewrite bind_returned; [|by apply read_bytes_file].
  erewrite bind_returned; [|unfold of_outcome; by rewrite Hsheets].
  destruct sheet as [s|]; [|done]. by destruct (dict_get sheets s).
Qed.

(** C4, on the code.  For a local Excel file whose workbook decodes, the
    reader returns the frame of the named sheet when a sheet selector is
    given; without a selector it passes [sheet_name=None] to pandas and gets
    back the dict of all sheets, not one frame, and [ingest_one] then raises
    [AttributeError] at [to_parquet], after the raw copy and before any
    standardized output or metadata record. *)
Theorem read_any_excel_without_sheet `{Env} (source_path : Path) (w w1 : World)
    (data : list byte) (sheets : list (string * DataFrame)) :
  plain_name (Pathlib.name source_path) →
  sniff_format source_path = "excel" →
  ensure_dirs w = (Returned tt, w1) →
  file_at (fs w) (resolve source_path) = Some data →
  let raw_path := raw_path_of source_path None in
  Fs.node_at (fs w) (resolve raw_path) ≠ Some Dir →
  excel_sheets data = Returned sheets →
  ∃ w',
    ingest_one source_path None None false w
    = (Raised (AttributeError "'dict' object has no attribute 'to_parquet'"), w') ∧
    read_any raw_path None w' = (Returned (PyDict (prod_map id VFrame <$> sheets)), w') ∧
    (∀ s df, dict_get sheets s = Some df →
             read_any raw_path (Some s) w' = (Returned (PyFrame df), w')) ∧
    file_at (fs w') (resolve raw_path) = Some data ∧
    (∀ k, k ≠ resolve raw_path → fs w' !! k = fs w1 !! k).
Proof.
  intros Hc Hfmt Hdirs Hsrc raw_path Hraw Hsheets.
  destruct (ingest_one_to_record source_path None false _ _ _ Hc Hdirs Hsrc Hraw)
    as (Hrun & Hready & Hframe).
  set (c := Pathlib.name source_path) in *.
  set (wc := set_fs (<[raw_dir_key ++ [c] := File data]> (fs w1)) w) in *.
  assert (resolve raw_path = raw_dir_key ++ [c]) as Hrk by apply (resolve_raw_path _ Hc).
  assert (raw_path = RAW_DIR // c) as Hrp by done.
  destruct (name_determines_suffix (RAW_DIR // c) source_path) as [_ Hsame];
    [by apply name_joins_plain|].
  assert (Fs.node_at (fs (tick wc)) (resolve raw_path) = Some (File data)) as Hstored.
  { rewrite Hrk, node_at_snoc. simpl. apply lookup_insert_eq. }
  pose proof (λ sheet, read_any_excel raw_path sheet (tick wc) data sheets
                        (eq_trans Hsame Hfmt) Hstored Hsheets) as Hread.
  exists (tick wc). split; [|split; [apply (Hread None)|split; [|split]]].
  - rewrite Hrun. unfold record_ingestion.
    erewrite bind_returned.
    2:{ apply base_meta_returned; [done|]. rewrite node_at_snoc. apply lookup_insert_eq. }
    simpl. apply bind_raised. unfold convert.
    erewrite bind_returned; [|rewrite <- Hrp; apply (Hread None)].
    simpl. apply bind_raised. unfold write_parquet, out_parquet_of.
    rewrite (parent_joins_plain _ _ (plain_parquet c Hc)).
    erewrite bind_returned; [|apply mkdir_ready; by rewrite resolve_PROC_DIR].
    reflexivity.
  - intros s df Hs. rewrite (Hread (Some s)). by rewrite Hs.
  - by apply file_at_node.
  - intros k Hk. simpl. rewrite Hrk in Hk. by rewrite lookup_insert_ne.
Qed.

(** The failing input: /home/ana/book.xlsx, a workbook with the one sheet
    Sheet1, ingested without [--excel-sheet]. *)
Lemma read_any_excel_without_sheet_witness :
  let raw_path := raw_path_of (H := Demo.offline) (Pathlib.of_string "book.xlsx") None in
  ∃ w',
    ingest_one (H := Demo.offline) (Pathlib.of_string "book.xlsx") None None false Demo.world0
    = (Raised (AttributeError "'dict' object has no attribute 'to_parquet'"), w') ∧
    read_any (H := Demo.offline) raw_path None w'
    = (Returned (PyDict (prod_map id VFrame <$>
         [("Sheet1", mkDataFrame 2 [(LStr "a", [SInt 1; SInt 3]); (LStr "b", [SInt 2; SInt 4])])])),
       w') ∧
    (∀ s df,
       dict_get
         [("Sheet1", mkDataFrame 2 [(LStr "a", [SInt 1; SInt 3]); (LStr "b", [SInt 2; SInt 4])])]
         s = Some df →
       read_any (H := Demo.offline) raw_path (Some s) w' = (Returned (PyFrame df), w')) ∧
    file_at (fs w') (resolve (H := Demo.offline) raw_path)
    = Some (String.list_byte_of_string Demo.t_csv) ∧
    (∀ k, k ≠ resolve (H := Demo.offline) raw_path →
          fs w' !! k = fs (ensure_dirs (H := Demo.offline) Demo.world0).2 !! k).
Proof.
  intros raw_path.
  apply (read_any_excel_without_sheet (H := Demo.offline)
           (Pathlib.of_string "book.xlsx") Demo.world0
           (ensure_dirs (H := Demo.offline) Demo.world0).2
           (String.list_byte_of_string Demo.t_csv)).
  - by repeat split.
  - reflexivity.
  - apply run_returned. vm_compute. reflexivity.
  - vm_compute. reflexivity.
  - by vm_compute.
  - vm_compute. reflexivity.
Defined.

(** ** Skipping the conversion *)



(** The record of that run, as evaluated: the label is "unknown". *)
Example ingest_one_notes_txt :
  let run := ingest_one (H := Demo.offline) (Pathlib.of_string "notes.txt") None None true
               Demo.world0 in
  ∃ meta : list (string * json),
    run.1 = Returned meta ∧
    dict_get meta "format" = Some (JStr "unknown") ∧
    dict_get meta "sha256"
    = Some (JStr "2cf24dba5fb0a30e26e83b2ac5b9e29e1b161e5c1fa7425e73043362938b9824").
Proof. intros run. eexists. split; [vm_compute; reflexivity|]. by split. Qed.

(** ** Usage errors of [main] *)

(** The run that ends in a usage error: the storage directories are ensured,
    the message goes to stderr, the exit code is 2. *)
Definition usage_error `{Env} (message : string) : IO Z :=
  ensure_dirs ;; print_err message ;; mret 2%Z.

(** What such a run leaves behind: the regular files and stdout as they were;
    locations that changed are directories created on the way to the two
    storage directories; and either exit code 2 with the message on stderr
    and both storage directories in place, or an error of the operating
    system raised by [ensure_dirs]. *)
Lemma usage_error_effects `{Env} message w r w' :
  usage_error message w = (r, w') →
  (∀ k, file_at (fs w') k = file_at (fs w) k) ∧
  stdout w' = stdout w ∧
  (∀ k, fs w' !! k = fs w !! k ∨
        (fs w !! k = None ∧ fs w' !! k = Some Dir ∧
         (k `prefix_of` raw_dir_key ∨ k `prefix_of` proc_dir_key))) ∧
  ((r = Returned 2%Z ∧ stderr w' = stderr w ++ [message] ∧
    dirs_ready (fs w') [] raw_dir_key ∧ dirs_ready (fs w') [] proc_dir_key)
   ∨ (∃ e, r = Raised e ∧ os_error e ∧ stderr w' = stderr w)).
Proof.
  unfold usage_error, mbind, IO_bind.
  destruct (ensure_dirs w) as [[e|[]] w1] eqn:Hdirs;
    destruct (ensure_dirs_inv _ _ _ Hdirs) as (f1 & -> & _ & Hfile & Hk & Hready);
    intros [= <- <-]; simpl.
  - do 3 (split; [done|]). right. exists e. split; [done|]. split; [|done].
    revert Hdirs. unfold ensure_dirs. intros Hdirs.
    eapply (raises_only_bind os_error); [apply raises_only_mkdir| |exact Hdirs].
    intros ?. apply raises_only_mkdir.
  - do 3 (split; [done|]). left. destruct (Hready eq_refl). done.
Qed.




(** C6, as the code has it.  With neither [--input] nor [--url] the run ends
    in the usage error: the nothing-to-ingest message on stderr and exit code
    2, no regular file created or changed; its only effect on the file system
    is that the storage directories are ensured first. *)
Theorem main_nothing_to_ingest `{Env} (args : Args) (w : World) :
  args_input args = [] → args_url args = [] →
  main args w = usage_error NOTHING_ERROR w ∧
  ∀ r w', main args w = (r, w') →
    (∀ k, file_at (fs w') k = file_at (fs w) k) ∧
    stdout w' = stdout w ∧
    (∀ k, fs w' !! k = fs w !! k ∨
          (fs w !! k = None ∧ fs w' !! k = Some Dir ∧
           (k `prefix_of` raw_dir_key ∨ k `prefix_of` proc_dir_key))) ∧
    ((r = Returned 2%Z ∧ stderr w' = stderr w ++ [NOTHING_ERROR] ∧
      dirs_ready (fs w') [] raw_dir_key ∧ dirs_ready (fs w') [] proc_dir_key)
     ∨ (∃ e, r = Raised e ∧ os_error e ∧ stderr w' = stderr w)).
Proof.
  intros Hinput Hurl.
  assert (main args w = usage_error NOTHING_ERROR w) as Hmain.
  { unfold main, usage_error, handle_downloads, mbind, IO_bind.
    destruct (ensure_dirs w) as [[e|[]] w1]; [done|].
    by rewrite Hurl, Hinput. }
  split; [done|]. intros r w'. rewrite Hmain. apply usage_error_effects.
Qed.

(** The instance of the amended C6 on the empty command line. *)
Lemma main_nothing_to_ingest_witness :
  main (H := Demo.offline) Demo.no_args Demo.world0
  = usage_error (H := Demo.offline) NOTHING_ERROR Demo.world0.
Proof.
  apply (proj1 (main_nothing_to_ingest (H := Demo.offline) Demo.no_args Demo.world0
                  eq_refl eq_refl)).
Defined.

(** C6 as the specification states it fails on the empty command line: the
    run exits with code 2 but has performed I/O, for /srv/sp/data/raw did not
    exist before it and is a directory after it. *)
Lemma main_nothing_to_ingest_counterexample :
  let run := main (H := Demo.offline) Demo.no_args Demo.world0 in
  run.1 = Returned 2%Z ∧
  fs Demo.world0 !! ["srv"; "sp"; "data"; "raw"] = None ∧
  fs run.2 !! ["srv"; "sp"; "data"; "raw"] = Some Dir ∧
  fs run.2 ≠ fs Demo.world0.
Proof.
  intros run. split; [vm_compute; reflexivity|]. do 2 (split; [vm_compute; reflexivity|]).
  intros Heq. apply (f_equal (λ f, f !! ["srv"; "sp"; "data"; "raw"])) in Heq.
  by vm_compute in Heq.
Qed.

(** ** Without an HTTP client *)


Definition REQUESTS_MISSING : exn :=
  RuntimeError "requests is not installed. Install it or use --input local files.".




(** A run with a URL on that machine: the error, and nothing stored. *)
Example main_url_without_requests :
  let run := main (H := Demo.offline)
               (mkArgs [] ["https://example.com/data.csv?v=1"] [] None false) Demo.world0 in
  run.1 = Raised REQUESTS_MISSING ∧
  file_at (fs run.2) ["srv"; "sp"; "data"; "raw"; "data.csv"] = None ∧
  stdout run.2 = ["Downloading: https://example.com/data.csv?v=1 -> /srv/sp/data/raw/data.csv"].
Proof. intros run. repeat split; vm_compute; reflexivity. Qed.

(** The same run with the client: the file is fetched, stored and ingested
    without a second copy. *)
Example main_url_with_requests :
  let run := main (H := Demo.online)
               (mkArgs [] ["https://example.com/data.csv?v=1"] [] None false) Demo.world0 in
  run.1 = Returned 0%Z ∧
  file_at (fs run.2) ["srv"; "sp"; "data"; "raw"; "data.csv"]
  = Some (String.list_byte_of_string ("a,b" +:+ Json.nl +:+ "1,2" +:+ Json.nl)).
Proof. intros run. repeat split; vm_compute; reflexivity. Qed.

(** * Further properties of the script *)

(** ** The storage directories *)

(** A regular file on the way to the target stops [mkdir]. *)
Lemma mkdir_from_blocked shown seen todo f t d :
  t ≠ [] → t `prefix_of` todo → f !! (seen ++ t) = Some (File d) →
  ∃ e, Fs.mkdir_from shown seen todo f = Raised e.
Proof.
  revert seen f t. induction todo as [|c rest IH]; intros seen f t Ht Hpre Hfile.
  { by apply prefix_nil_inv in Hpre. }
  destruct t as [|a t]; [done|].
  apply prefix_cons_inv_1 in Hpre as Ha. apply prefix_cons_inv_2 in Hpre. subst a.
  simpl. destruct (f !! (seen ++ [c])) as [[d'|]|] eqn:Hc; [by eexists|..].
  - destruct t as [|b t]; [congruence|].
    apply (IH (seen ++ [c]) f (b :: t)); [done..|]. by rewrite <- app_assoc.
  - destruct t as [|b t]; [congruence|].
    apply (IH (seen ++ [c]) _ (b :: t)); [done..|].
    rewrite <- app_assoc. simpl. rewrite lookup_insert_ne; [done|].
    intros Heq%(f_equal length). rewrite !length_app in Heq. simpl in Heq. lia.
Qed.

(** X1.  [ensure_dirs] (lines 54-56) is idempotent: once it has returned, both
    storage directories are directories, it has changed no regular file, and
    a second call returns without changing anything. *)
Theorem ensure_dirs_idempotent `{Env} (w w1 : World) :
  ensure_dirs w = (Returned tt, w1) →
  ensure_dirs w1 = (Returned tt, w1) ∧
  Fs.node_at (fs w1) (resolve RAW_DIR) = Some Dir ∧
  Fs.node_at (fs w1) (resolve PROC_DIR) = Some Dir ∧
  (∀ k, file_at (fs w1) k = file_at (fs w) k) ∧
  clock_reads w1 = clock_reads w ∧ stdout w1 = stdout w ∧ stderr w1 = stderr w.
Proof.
  intros Hdirs.
  destruct (ensure_dirs_inv _ _ _ Hdirs) as (f1 & -> & _ & Hfile & _ & Hready).
  destruct (Hready eq_refl) as [Hraw Hproc].
  split; [by apply ensure_dirs_ready|].
  rewrite resolve_RAW_DIR, resolve_PROC_DIR.
  split; [by apply dirs_ready_node|]. split; [by apply dirs_ready_node|]. done.
Qed.

Lemma ensure_dirs_idempotent_witness :
  let w1 := (ensure_dirs (H := Demo.offline) Demo.world0).2 in
  ensure_dirs (H := Demo.offline) w1 = (Returned tt, w1).
Proof.
  intros w1.
  apply (ensure_dirs_idempotent (H := Demo.offline) Demo.world0 w1).
  apply run_returned. vm_compute. reflexivity.
Defined.

(** X2.  With [exist_ok=True] a directory that exists is accepted, a regular file
    is not: when a regular file sits where a storage directory or one of its
    ancestors has to be, [ensure_dirs] raises an error of the operating
    system without touching a regular file, and so does every call of
    [ingest_one] and of [main], with the same error and the same world. *)
Theorem ensure_dirs_blocked_by_file `{Env} (w : World) (k : list string) (d : list byte) :
  k ≠ [] →
  k `prefix_of` resolve RAW_DIR ∨ k `prefix_of` resolve PROC_DIR →
  fs w !! k = Some (File d) →
  ∃ e w',
    ensure_dirs w = (Raised e, w') ∧ os_error e ∧
    (∀ k', file_at (fs w') k' = file_at (fs w) k') ∧
    (∀ source_path raw_name excel_sheet skip_parquet,
       ingest_one source_path raw_name excel_sheet skip_parquet w = (Raised e, w')) ∧
    (∀ args, main args w = (Raised e, w')).
Proof.
  intros Hk Hpre Hfile.
  destruct (ensure_dirs w) as [[e|[]] w'] eqn:Hdirs.
  - exists e, w'. split; [done|].
    destruct (ensure_dirs_inv _ _ _ Hdirs) as (f1 & -> & _ & Hfiles & _).
    split.
    { revert Hdirs. unfold ensure_dirs. intros Hdirs.
      eapply (raises_only_bind os_error); [apply raises_only_mkdir| |exact Hdirs].
      intros ?. apply raises_only_mkdir. }
    split; [done|]. split.
    + intros. unfold ingest_one. by apply bind_raised.
    + intros. unfold main. by apply bind_raised.
  - exfalso.
    destruct (ensure_dirs_inv _ _ _ Hdirs) as (f1 & -> & Hsub & _ & _ & Hready).
    destruct (Hready eq_refl) as [Hraw Hproc].
    rewrite resolve_RAW_DIR, resolve_PROC_DIR in Hpre.
    eapply lookup_weaken in Hfile; [|exact Hsub].
    destruct Hpre as [Hpre|Hpre]; [specialize (Hraw k Hk Hpre)|specialize (Hproc k Hk Hpre)];
      simpl in *; congruence.
Qed.

(** A machine on which /srv/sp/data is a regular file. *)
Definition data_is_a_file : World :=
  mkWorld (<[["srv"; "sp"; "data"] := Demo.text "not a directory"]>
             (<[["srv"; "sp"] := Dir]> (<[["srv"] := Dir]> Demo.disk))) 0 [] [].

Lemma ensure_dirs_blocked_witness :
  ∃ e w',
    ensure_dirs (H := Demo.offline) data_is_a_file = (Raised e, w') ∧ os_error e ∧
    (∀ k', file_at (fs w') k' = file_at (fs data_is_a_file) k') ∧
    (∀ source_path raw_name excel_sheet skip_parquet,
       ingest_one (H := Demo.offline) source_path raw_name excel_sheet skip_parquet
         data_is_a_file = (Raised e, w')) ∧
    (∀ args, main (H := Demo.offline) args data_is_a_file = (Raised e, w')).
Proof.
  apply (ensure_dirs_blocked_by_file (H := Demo.offline) data_is_a_file
           ["srv"; "sp"; "data"] (String.list_byte_of_string "not a directory")).
  - done.
  - left. vm_compute. by exists ["raw"].
  - vm_compute. reflexivity.
Defined.

(** ** A source that is not there *)



(** ** The checksum of a file *)


(** ** Downloads *)

(** The loop of lines 66-68 on a file that is open for writing: the chunks
    are appended in order, empty ones change nothing. *)
Lemma append_chunks `{Env} (dest : Path) (chunks : list (list byte)) (w : World)
    (content : list byte) :
  fs w !! resolve dest = Some (File content) →
  for_each chunks (λ chunk,
    match chunk with
    | [] => mret tt
    | _ => fs_update (λ f, Returned (Fs.append (resolve dest) chunk f))
    end) w
  = (Returned tt, set_fs (<[resolve dest := File (content ++ concat chunks)]> (fs w)) w).
Proof.
  revert w content. induction chunks as [|chunk chunks IH]; intros w content Hopen.
  { simpl. by rewrite app_nil_r, insert_id, set_fs_id. }
  cbn [for_each concat]. destruct chunk as [|b chunk].
  - erewrite bind_returned; [|reflexivity]. by apply IH.
  - erewrite bind_returned; [|reflexivity].
    unfold Fs.append. rewrite Hopen.
    rewrite (IH _ (content ++ b :: chunk)) by (simpl; apply lookup_insert_eq).
    simpl. by rewrite insert_insert_eq, <- app_assoc.
Qed.

(** What [mkdir] changes, in terms of regular files: nothing. *)
Lemma file_at_after_mkdir `{Env} p w r w' :
  mkdir p w = (r, w') →
  (∀ k, file_at (fs w') k = file_at (fs w) k) ∧
  clock_reads w' = clock_reads w ∧ stdout w' = stdout w ∧ stderr w' = stderr w ∧
  (∀ e, r = Raised e → os_error e).
Proof.
  intros Hm. destruct (mkdir_inv _ _ _ _ Hm) as [(f' & Hf & -> & ->)|(e & -> & ->)].
  - split; [|done]. intros k. simpl. by eapply file_at_mkdir.
  - split; [done|]. do 3 (split; [done|]). intros e' [= <-].
    by eapply raises_only_mkdir.
Qed.

(** X5.  [download_file] (lines 59-68) with a client: when it returns, the server
    answered with a status outside 400-599 and the destination holds the
    bytes of the response body, the chunks in order, whatever it held before;
    no other regular file has changed, and neither the clock nor the standard
    streams were touched. *)
Theorem download_file_stores_body `{Env} (get : string → http_result) (url : string)
    (dest : Path) (w w' : World) :
  requests = Some get →
  download_file url dest w = (Returned tt, w') →
  ∃ status chunks,
    get url = Response status chunks ∧
    (status < 400 ∨ 600 ≤ status) ∧
    file_at (fs w') (resolve dest) = Some (concat chunks) ∧
    (∀ k, k ≠ resolve dest → file_at (fs w') k = file_at (fs w) k) ∧
    clock_reads w' = clock_reads w ∧ stdout w' = stdout w ∧ stderr w' = stderr w.
Proof.
  intros Hclient. unfold download_file. rewrite Hclient.
  intros ([] & w1 & Hmkdir & Hrest)%bind_returned_inv.
  destruct (file_at_after_mkdir _ _ _ _ Hmkdir) as (Hfile & Hclock & Hout & Herr & _).
  destruct (get url) as [msg|status chunks]; [done|].
  exists status, chunks. split; [done|].
  destruct ((400 <=? status) && (status <? 600)) eqn:Hstatus; [done|].
  split.
  { apply andb_false_iff in Hstatus as [?%Nat.leb_gt|?%Nat.ltb_ge]; lia. }
  apply bind_returned_inv in Hrest as ([] & w2 & [Hnd ->]%write_bytes_inv & Hloop).
  rewrite (append_chunks dest chunks _ []) in Hloop by (simpl; apply lookup_insert_eq).
  injection Hloop as <-. simpl. rewrite insert_insert_eq.
  assert (resolve dest ≠ []) as Hk.
  { intros Heq. rewrite Heq in Hnd. by apply Hnd. }
  split; [|split; [|done]].
  - unfold file_at, Fs.node_at. rewrite bool_decide_eq_false_2 by done.
    by rewrite lookup_insert_eq.
  - intros k Hne. rewrite <- Hfile. unfold file_at, Fs.node_at.
    case_bool_decide; [done|]. by rewrite lookup_insert_ne.
Qed.

Lemma download_file_stores_body_witness :
  let dest := RAW_DIR (H := Demo.online) // "data.csv" in
  let run := download_file (H := Demo.online) "https://example.com/data.csv?v=1" dest
               Demo.world0 in
  ∃ status chunks,
    Demo.http_get "https://example.com/data.csv?v=1" = Response status chunks ∧
    (status < 400 ∨ 600 ≤ status) ∧
    file_at (fs run.2) (resolve (H := Demo.online) dest) = Some (concat chunks) ∧
    (∀ k, k ≠ resolve (H := Demo.online) dest →
          file_at (fs run.2) k = file_at (fs Demo.world0) k) ∧
    clock_reads run.2 = clock_reads Demo.world0 ∧ stdout run.2 = stdout Demo.world0 ∧
    stderr run.2 = stderr Demo.world0.
Proof.
  intros dest run.
  apply (download_file_stores_body (H := Demo.online) Demo.http_get
           "https://example.com/data.csv?v=1" dest Demo.world0 run.2 eq_refl).
  apply run_returned. vm_compute. reflexivity.
Defined.

(** X6.  [raise_for_status] comes before the destination is opened: when the
    request fails, or the server answers with a status in 400-599,
    [download_file] raises and no regular file is created, truncated or
    changed; an existing file at the destination keeps its bytes. *)
Theorem download_file_failure_keeps_files `{Env} (get : string → http_result)
    (url : string) (dest : Path) (w : World) :
  requests = Some get →
  (∀ status chunks, get url = Response status chunks → 400 ≤ status < 600) →
  ∃ e w',
    download_file url dest w = (Raised e, w') ∧
    (os_error e ∨ ∃ msg, e = RequestException msg) ∧
    (∀ k, file_at (fs w') k = file_at (fs w) k).
Proof.
  intros Hclient Hfails. unfold download_file. rewrite Hclient.
  unfold mbind, IO_bind. destruct (mkdir (Pathlib.parent dest) w) as [r w1] eqn:Hmkdir.
  destruct (file_at_after_mkdir _ _ _ _ Hmkdir) as (Hfile & _ & _ & _ & Hos).
  destruct r as [e|[]]; [exists e, w1; eauto|].
  destruct (get url) as [msg|status chunks] eqn:Hget.
  - exists (RequestException msg), w1. eauto.
  - destruct (Hfails _ _ eq_refl) as [Hlo Hhi].
    apply Nat.leb_le in Hlo. apply Nat.ltb_lt in Hhi. rewrite Hlo, Hhi. simpl.
    eexists _, w1. eauto.
Qed.

Lemma download_file_failure_witness :
  ∃ e w',
    download_file (H := Demo.online) "https://example.com/missing.csv"
      (Pathlib.of_string "/home/ana/t.csv") Demo.world0 = (Raised e, w') ∧
    (os_error e ∨ ∃ msg, e = RequestException msg) ∧
    (∀ k, file_at (fs w') k = file_at (fs Demo.world0) k).
Proof.
  apply (download_file_failure_keeps_files (H := Demo.online) Demo.http_get
           "https://example.com/missing.csv" (Pathlib.of_string "/home/ana/t.csv")
           Demo.world0 eq_refl).
  intros status chunks. vm_compute. intros [= <- _]. lia.
Defined.

(** ** The reader *)



(** ** What is handed to the parquet encoder, and what the record says *)

Lemma columns_setitem_inv df key v l col :
  (l, col) ∈ columns (df_setitem df key v) →
  (l = key ∧ col = replicate (nrows df) v) ∨ (l ≠ key ∧ (l, col) ∈ columns df).
Proof.
  unfold df_setitem. case_bool_decide as Hin; simpl.
  - intros ([l' col'] & Heq & Hc)%list_elem_of_fmap. simpl in Heq.
    case_bool_decide as Hl; injection Heq as -> ->; [by left|by right].
  - intros [Hc|Hc%list_elem_of_singleton]%elem_of_app; [|injection Hc as -> ->; by left].
    right. split; [|done]. intros ->. apply Hin.
    apply list_elem_of_fmap. by exists (key, col).
Qed.

Lemma filter_overwrite (P : label → Prop) `{∀ l, Decision (P l)}
    (cols : list (label * list scalar)) key col :
  ¬ P key →
  filter (λ c, P c.1) ((λ c, if bool_decide (c.1 = key) then (c.1, col) else c) <$> cols)
  = filter (λ c, P c.1) cols.
Proof.
  intros Hkey. induction cols as [|[l data] cols IH]; [done|].
  rewrite fmap_cons. simpl. case_bool_decide as Hl.
  - subst l. rewrite !filter_cons_False by done. apply IH.
  - destruct (decide (P l)) as [Hp|Hp].
    + rewrite !filter_cons_True by done. by rewrite IH.
    + rewrite !filter_cons_False by done. apply IH.
Qed.

Lemma filter_columns_setitem (P : label → Prop) `{∀ l, Decision (P l)} df key v :
  ¬ P key →
  filter (λ c, P c.1) (columns (df_setitem df key v)) = filter (λ c, P c.1) (columns df).
Proof.
  intros Hkey. unfold df_setitem. case_bool_decide as Hin; simpl.
  - by apply filter_overwrite.
  - rewrite filter_app, filter_cons_False by done. by rewrite filter_nil, app_nil_r.
Qed.

Lemma key_in_setitem df key v : key ∈ (columns (df_setitem df key v)).*1.
Proof.
  rewrite labels_setitem. case_bool_decide; [done|]. apply elem_of_app. right.
  apply list_elem_of_here.
Qed.

(** A column label that is not one of the two provenance names. *)
Definition payload_label (l : label) : Prop :=
  l ≠ LStr "source_file" ∧ l ≠ LStr "ingested_at".

Global Instance payload_label_dec l : Decision (payload_label l).
Proof. unfold payload_label. apply _. Defined.

Lemma stamp_columns df c now :
  let out := stamp df c now in
  nrows out = nrows df ∧
  LStr "source_file" ∈ (columns out).*1 ∧
  LStr "ingested_at" ∈ (columns out).*1 ∧
  (∀ col, (LStr "source_file", col) ∈ columns out → col = replicate (nrows df) (SStr c)) ∧
  (∀ col, (LStr "ingested_at", col) ∈ columns out → col = replicate (nrows df) (SStr now)) ∧
  filter (λ col, payload_label col.1) (columns out)
  = filter (λ col, payload_label col.1) (columns df).
Proof.
  intros out. unfold out, stamp.
  set (df1 := df_setitem df (LStr "source_file") (SStr c)).
  assert (nrows df1 = nrows df) as Hrows by apply nrows_setitem.
  split; [by rewrite nrows_setitem|]. split; [|split; [apply key_in_setitem|]].
  { rewrite labels_setitem. case_bool_decide; [|apply elem_of_app; left];
      apply key_in_setitem. }
  split; [|split].
  - intros col [[[=] _]|[_ Hc]]%columns_setitem_inv.
    by apply columns_setitem_inv in Hc as [[_ ->]|[? _]].
  - intros col [[_ ->]|[? _]]%columns_setitem_inv; [|done]. by rewrite Hrows.
  - unfold df1. rewrite !filter_columns_setitem; [done|..]; unfold payload_label; tauto.
Qed.

Lemma meta_json_ne_parquet s : s +:+ ".meta.json" ≠ s +:+ ".parquet".
Proof. by intros ?%(inj (String.app s)). Qed.

(** X8.  Lines 136-143.  The frame that a successful ingestion with conversion
    hands to the parquet encoder has the rows of the decoded frame; it has a
    [source_file] and an [ingested_at] column, every cell of which is the raw
    file's name, respectively the timestamp the record carries; and its other
    columns are the decoded ones, data and order untouched.  The bytes the
    encoder returns for it are the standardized output. *)
Theorem ingest_one_stamps_every_row `{Env} (source_path : Path)
    (excel_sheet : option string) (w w' : World) (meta : list (string * json)) :
  plain_name (Pathlib.name source_path) →
  ingest_one source_path None excel_sheet false w = (Returned meta, w') →
  let raw_path := raw_path_of source_path None in
  ∃ (decoded out : DataFrame) (reading : World) (encoded : list byte) (now : string),
    file_at (fs reading) (resolve raw_path) = file_at (fs w) (resolve source_path) ∧
    read_any raw_path excel_sheet reading = (Returned (PyFrame decoded), reading) ∧
    to_parquet_bytes out = Returned encoded ∧
    file_at (fs w') (resolve (out_parquet_of raw_path)) = Some encoded ∧
    dict_get meta "ingested_at" = Some (JStr now) ∧
    nrows out = nrows decoded ∧
    LStr "source_file" ∈ (columns out).*1 ∧
    LStr "ingested_at" ∈ (columns out).*1 ∧
    (∀ col, (LStr "source_file", col) ∈ columns out →
            col = replicate (nrows decoded) (SStr (Pathlib.name source_path))) ∧
    (∀ col, (LStr "ingested_at", col) ∈ columns out →
            col = replicate (nrows decoded) (SStr now)) ∧
    filter (λ col, payload_label col.1) (columns out)
    = filter (λ col, payload_label col.1) (columns decoded).
Proof.
  intros Hc Hrun raw_path.
  destruct (ingest_one_returned_inv _ _ _ _ _ _ Hc Hrun)
    as (f1 & data & record & _ & Hdata & Hmeta & df & pq & Hread & Henc & -> & Hfs).
  set (c := Pathlib.name source_path) in *.
  set (now := utc_clock (clock_reads w)) in *.
  exists df, (stamp df c now). eexists. exists pq, now.
  split; [|split; [exact Hread|]].
  { unfold raw_path. rewrite (resolve_raw_path _ Hc), Hdata, file_at_snoc. simpl.
    by rewrite lookup_insert_eq. }
  split; [done|]. split.
  { unfold raw_path. rewrite (resolve_out_parquet _ Hc), Hfs, file_at_snoc.
    rewrite lookup_insert_ne by (intros Heq%app_inv_head; injection Heq;
                                 apply meta_json_ne_parquet).
    by rewrite lookup_insert_eq. }
  split; [by rewrite Hmeta|]. apply stamp_columns.
Qed.

Lemma ingest_one_stamps_witness :
  let run := ingest_one (H := Demo.offline) (Pathlib.of_string "t.csv") None None false
               Demo.world0 in
  ∃ (out : DataFrame) (encoded : list byte),
    Demo.to_parquet out = Returned encoded ∧
    LStr "source_file" ∈ (columns out).*1 ∧
    (∀ col, (LStr "source_file", col) ∈ columns out →
            col = replicate (nrows out) (SStr "t.csv")).
Proof.
  intros run.
  destruct (ingest_one_stamps_every_row (H := Demo.offline)
              (Pathlib.of_string "t.csv") None Demo.world0 run.2
              (match run.1 with Returned m => m | Raised _ => [] end))
    as (decoded & out & reading & encoded & now & _ & _ & Henc & _ & _ & Hrows & Hin & _
        & Hcells & _).
  - by repeat split.
  - apply run_returned. vm_compute. reflexivity.
  - exists out, encoded. split; [exact Henc|]. split; [exact Hin|].
    intros col Hcol. rewrite Hrows. exact (Hcells col Hcol).
Defined.

(** X9.  Lines 127-151.  The record a successful ingestion writes to the sidecar
    has the keys raw_file, original_path, format, sha256, ingested_at, then
    parquet, rows, columns when the conversion ran, in this order and no
    other; its paths are relative to the project root and share the stem of
    the raw file.  The returned record is the written one with [metadata],
    the sidecar's own path, added at the end: the sidecar does not name
    itself. *)
Theorem ingest_one_record_schema `{Env} (source_path : Path)
    (excel_sheet : option string) (skip_parquet : bool) (w w' : World)
    (meta : list (string * json)) :
  plain_name (Pathlib.name source_path) →
  ingest_one source_path None excel_sheet skip_parquet w = (Returned meta, w') →
  let raw_path := raw_path_of source_path None in
  let stem := Pathlib.stem raw_path in
  ∃ record : list (string * json),
    file_at (fs w') (resolve (meta_path_of raw_path))
    = Some (String.list_byte_of_string (Json.dumps record)) ∧
    meta = record ++
           [("metadata", JStr ("data/processed/ingested/" +:+ stem +:+ ".meta.json"))] ∧
    record.*1 = ["raw_file"; "original_path"; "format"; "sha256"; "ingested_at"] ++
                (if skip_parquet then [] else ["parquet"; "rows"; "columns"]) ∧
    dict_get record "raw_file" = Some (JStr ("data/raw/" +:+ Pathlib.name source_path)) ∧
    dict_get record "original_path" = Some (JStr (Pathlib.to_string source_path)) ∧
    dict_get record "format" = Some (JStr (sniff_format source_path)) ∧
    dict_get record "ingested_at" = Some (JStr (utc_clock (clock_reads w))) ∧
    (skip_parquet = false →
     dict_get record "parquet"
     = Some (JStr ("data/processed/ingested/" +:+ stem +:+ ".parquet"))).
Proof.
  intros Hc Hrun raw_path stem.
  destruct (ingest_one_returned_inv _ _ _ _ _ _ Hc Hrun)
    as (f1 & data & record & _ & _ & Hmeta & Hmode).
  destruct (name_determines_suffix (RAW_DIR // Pathlib.name source_path) source_path)
    as [_ Hfmt]; [by apply name_joins_plain|].
  exists record. unfold raw_path. rewrite (resolve_meta_path _ Hc), file_at_snoc.
  destruct skip_parquet.
  - destruct Hmode as [-> Hfs]. rewrite Hfs, lookup_insert_eq. subst meta.
    unfold base_record. rewrite Hfmt. by repeat split.
  - destruct Hmode as (df & pq & _ & _ & -> & Hfs). rewrite Hfs, lookup_insert_eq.
    subst meta. unfold converted_record, base_record. rewrite Hfmt. by repeat split.
Qed.

Lemma ingest_one_record_schema_witness :
  let run := ingest_one (H := Demo.offline) (Pathlib.of_string "t.csv") None None false
               Demo.world0 in
  ∃ record : list (string * json),
    record.*1 = ["raw_file"; "original_path"; "format"; "sha256"; "ingested_at";
                 "parquet"; "rows"; "columns"] ∧
    dict_get record "raw_file" = Some (JStr "data/raw/t.csv") ∧
    dict_get record "parquet" = Some (JStr "data/processed/ingested/t.parquet") ∧
    run.1 = Returned (record ++ [("metadata", JStr "data/processed/ingested/t.meta.json")]).
Proof.
  intros run.
  destruct (ingest_one_record_schema (H := Demo.offline)
              (Pathlib.of_string "t.csv") None false Demo.world0 run.2
              (match run.1 with Returned m => m | Raised _ => [] end))
    as (record & _ & Hmeta & Hkeys & Hraw & _ & _ & _ & Hpq).
  - by repeat split.
  - apply run_returned. vm_compute. reflexivity.
  - exists record. split; [exact Hkeys|]. split; [exact Hraw|]. split; [exact (Hpq eq_refl)|].
    transitivity (Returned (match run.1 with Returned m => m | Raised _ => [] end));
      [vm_compute; reflexivity|].
    rewrite Hmeta. reflexivity.
Defined.

(** ** Ingesting again *)

Lemma dom_insert_present (f : gmap (list string) node) k x :
  is_Some (f !! k) → dom (<[k := x]> f) = dom f.
Proof.
  intros Hk%elem_of_dom. rewrite dom_insert_L. apply set_eq. intros k'.
  rewrite elem_of_union, elem_of_singleton. intuition (subst; auto).
Qed.

(** X10.  Lines 120-149.  Ingesting the same path a second time, in the same mode,
    creates nothing new: the locations of the file system after the second
    run are those after the first, and every location other than the raw
    copy, the standardized output and the sidecar keeps its node.  The three
    files are overwritten in place; no name is versioned. *)
Theorem ingest_one_again_overwrites `{Env} (source_path : Path)
    (excel_sheet : option string) (skip_parquet : bool) (w w1 w2 : World)
    (meta1 meta2 : list (string * json)) :
  plain_name (Pathlib.name source_path) →
  ingest_one source_path None excel_sheet skip_parquet w = (Returned meta1, w1) →
  ingest_one source_path None excel_sheet skip_parquet w1 = (Returned meta2, w2) →
  let raw_path := raw_path_of source_path None in
  dom (fs w2) = dom (fs w1) ∧
  (∀ k, k ≠ resolve raw_path → k ≠ resolve (out_parquet_of raw_path) →
        k ≠ resolve (meta_path_of raw_path) → fs w2 !! k = fs w1 !! k) ∧
  dict_get meta2 "raw_file" = dict_get meta1 "raw_file" ∧
  dict_get meta2 "parquet" = dict_get meta1 "parquet" ∧
  dict_get meta2 "metadata" = dict_get meta1 "metadata".
Proof.
  intros Hc Hrun1 Hrun2 raw_path.
  destruct (ingest_one_returned_inv _ _ _ _ _ _ Hc Hrun1)
    as (f1 & data1 & record1 & Hdirs1 & _ & Hmeta1 & Hmode1).
  destruct (ingest_one_returned_inv _ _ _ _ _ _ Hc Hrun2)
    as (f2 & data2 & record2 & Hdirs2 & _ & Hmeta2 & Hmode2).
  destruct (ensure_dirs_inv _ _ _ Hdirs1) as (f1' & Hf1 & _ & _ & _ & Hready).
  apply (f_equal fs) in Hf1. simpl in Hf1. subst f1'.
  destruct (Hready eq_refl) as [Hraw Hproc].
  set (c := Pathlib.name source_path) in *.
  set (stem := Pathlib.stem (RAW_DIR // c)) in *.
  set (rk := raw_dir_key ++ [c]) in *.
  set (pk := proc_dir_key ++ [stem +:+ ".parquet"]) in *.
  set (mk := proc_dir_key ++ [stem +:+ ".meta.json"]) in *.
  assert (∀ k' x f, dirs_ready f [] raw_dir_key ∧ dirs_ready f [] proc_dir_key →
            k' = rk ∨ k' = pk ∨ k' = mk →
            dirs_ready (<[k' := x]> f) [] raw_dir_key ∧
            dirs_ready (<[k' := x]> f) [] proc_dir_key) as Hkeep.
  { intros k' x f [Hr Hp] Hk'. split; apply dirs_ready_insert; try done.
    all: destruct Hk' as [->|[->| ->]];
      (apply raw_entry_not_prefix || apply proc_entry_not_prefix); auto. }
  assert (dirs_ready (fs w1) [] raw_dir_key ∧ dirs_ready (fs w1) [] proc_dir_key) as [Hr1 Hp1].
  { destruct skip_parquet.
    - destruct Hmode1 as [_ ->]. repeat apply Hkeep; auto.
    - destruct Hmode1 as (? & ? & _ & _ & _ & ->). repeat apply Hkeep; auto. }
  rewrite (ensure_dirs_ready w1 Hr1 Hp1) in Hdirs2.
  injection Hdirs2 as Hf2. apply (f_equal fs) in Hf2. simpl in Hf2. subst f2.
  assert (resolve raw_path = rk) as -> by apply (resolve_raw_path _ Hc).
  assert (resolve (out_parquet_of raw_path) = pk) as -> by apply (resolve_out_parquet _ Hc).
  assert (resolve (meta_path_of raw_path) = mk) as -> by apply (resolve_meta_path _ Hc).
  assert (mk ≠ rk) as Hmr by (symmetry; apply raw_entry_ne_proc_entry).
  assert (pk ≠ rk) as Hpr by (symmetry; apply raw_entry_ne_proc_entry).
  assert (mk ≠ pk) as Hmp
    by (intros Heq%app_inv_head; injection Heq; apply meta_json_ne_parquet).
  assert (is_Some (fs w1 !! rk) ∧ is_Some (fs w1 !! mk) ∧
          (skip_parquet = false → is_Some (fs w1 !! pk))) as (Hrk & Hmk & Hpk).
  { destruct skip_parquet.
    - destruct Hmode1 as [_ ->]. split; [|split; [|done]].
      + rewrite lookup_insert_ne, lookup_insert_eq by done. eauto.
      + rewrite lookup_insert_eq. eauto.
    - destruct Hmode1 as (? & ? & _ & _ & _ & ->). split; [|split]; [| |intros _].
      + rewrite !lookup_insert_ne, lookup_insert_eq by done. eauto.
      + rewrite lookup_insert_eq. eauto.
      + rewrite lookup_insert_ne, lookup_insert_eq by done. eauto. }
  assert (dict_get meta2 "raw_file" = dict_get meta1 "raw_file" ∧
          dict_get meta2 "parquet" = dict_get meta1 "parquet" ∧
          dict_get meta2 "metadata" = dict_get meta1 "metadata") as Hnames.
  { subst meta1 meta2. destruct skip_parquet.
    - destruct Hmode1 as [-> _], Hmode2 as [-> _]. by repeat split.
    - destruct Hmode1 as (? & ? & _ & _ & -> & _), Hmode2 as (? & ? & _ & _ & -> & _).
      by repeat split. }
  split; [|split; [|done]].
  - destruct skip_parquet.
    + destruct Hmode2 as [_ ->]. rewrite dom_insert_present; [by apply dom_insert_present|].
      by rewrite lookup_insert_ne by done.
    + destruct Hmode2 as (? & ? & _ & _ & _ & ->).
      rewrite (dom_insert_present _ mk), (dom_insert_present _ pk), (dom_insert_present _ rk).
      * done.
      * done.
      * rewrite lookup_insert_ne by done. auto.
      * rewrite !lookup_insert_ne by done. done.
  - intros k Hk1 Hk2 Hk3. destruct skip_parquet.
    + destruct Hmode2 as [_ ->]. by rewrite !lookup_insert_ne.
    + destruct Hmode2 as (? & ? & _ & _ & _ & ->). by rewrite !lookup_insert_ne.
Qed.

Lemma ingest_one_again_witness :
  let first := ingest_one (H := Demo.offline) (Pathlib.of_string "t.csv") None None false
                 Demo.world0 in
  let second := ingest_one (H := Demo.offline) (Pathlib.of_string "t.csv") None None false
                  first.2 in
  dom (fs second.2) = dom (fs first.2).
Proof.
  intros first second.
  apply (ingest_one_again_overwrites (H := Demo.offline) (Pathlib.of_string "t.csv")
           None false Demo.world0 first.2 second.2
           (match first.1 with Returned m => m | Raised _ => [] end)
           (match second.1 with Returned m => m | Raised _ => [] end)).
  - by repeat split.
  - apply run_returned. vm_compute. reflexivity.
  - apply run_returned. vm_compute. reflexivity.
Defined.

(** ** A conversion that fails *)

Lemma run_raised {A} (run : outcome A * World) (e : exn) :
  run.1 = Raised e → run = (Raised e, run.2).
Proof. destruct run as [r w]. simpl. by intros ->. Qed.

(** X11.  Lines 135-149.  Nothing is cleaned up when the conversion fails.  If the
    reader raises on the stored raw copy, or the parquet encoder raises on
    the stamped frame, [ingest_one] raises that same error; the raw copy
    stays, holding the bytes of the original, and nothing else has been
    written: no standardized output and no sidecar. *)
Theorem ingest_one_conversion_failure `{Env} (source_path : Path)
    (excel_sheet : option string) (w w1 : World) (data : list byte) (e : exn) :
  plain_name (Pathlib.name source_path) →
  ensure_dirs w = (Returned tt, w1) →
  file_at (fs w) (resolve source_path) = Some data →
  let raw_path := raw_path_of source_path None in
  Fs.node_at (fs w) (resolve raw_path) ≠ Some Dir →
  let stored := tick (set_fs (<[resolve raw_path := File data]> (fs w1)) w) in
  (read_any raw_path excel_sheet stored = (Raised e, stored) ∨
   ∃ df, read_any raw_path excel_sheet stored = (Returned (PyFrame df), stored) ∧
         to_parquet_bytes
           (stamp df (Pathlib.name source_path) (utc_clock (clock_reads w))) = Raised e) →
  ingest_one source_path None excel_sheet false w = (Raised e, stored) ∧
  file_at (fs stored) (resolve raw_path) = Some data ∧
  (∀ k, k ≠ resolve raw_path → fs stored !! k = fs w1 !! k).
Proof.
  intros Hc Hdirs Hsrc raw_path Hraw stored Hfail.
  destruct (ingest_one_to_record source_path excel_sheet false _ _ _ Hc Hdirs Hsrc Hraw)
    as (Hrun & Hready & _).
  set (c := Pathlib.name source_path) in *.
  assert (resolve raw_path = raw_dir_key ++ [c]) as Hrk by apply (resolve_raw_path _ Hc).
  assert (raw_path = RAW_DIR // c) as Hrp by done.
  unfold stored in *. rewrite Hrk in *.
  set (wc := set_fs (<[raw_dir_key ++ [c] := File data]> (fs w1)) w) in *.
  split; [|split].
  - rewrite Hrun. unfold record_ingestion.
    erewrite bind_returned.
    2:{ apply base_meta_returned; [done|]. rewrite node_at_snoc. apply lookup_insert_eq. }
    simpl. apply bind_raised. unfold convert. rewrite <- Hrp.
    destruct Hfail as [Hread|(df & Hread & Henc)]; [by apply bind_raised|].
    erewrite bind_returned; [|exact Hread]. simpl. apply bind_raised.
    unfold write_parquet, out_parquet_of. rewrite Hrp.
    rewrite (parent_joins_plain _ _ (plain_parquet c Hc)).
    erewrite bind_returned; [|apply mkdir_ready; by rewrite resolve_PROC_DIR].
    rewrite (name_joins_plain _ _ Hc). simpl. apply bind_raised.
    unfold of_outcome. fold c. f_equal. exact Henc.
  - rewrite file_at_snoc. simpl. by rewrite lookup_insert_eq.
  - intros k Hk. simpl. by rewrite lookup_insert_ne.
Qed.

(** A machine with a JSON file, which the decoder of the concrete
    environment rejects. *)
Definition with_json_file : World :=
  mkWorld (<[["home"; "ana"; "x.json"] := Demo.text "{"]> Demo.disk) 0 [] [].

Lemma ingest_one_conversion_failure_witness :
  let raw_path := raw_path_of (H := Demo.offline) (Pathlib.of_string "x.json") None in
  let stored :=
    tick (set_fs (<[resolve (H := Demo.offline) raw_path :=
                      File (String.list_byte_of_string "{")]>
                    (fs (ensure_dirs (H := Demo.offline) with_json_file).2)) with_json_file) in
  ingest_one (H := Demo.offline) (Pathlib.of_string "x.json") None None false with_json_file
  = (Raised (LibraryError "Expected object or value"), stored).
Proof.
  intros raw_path stored.
  apply (ingest_one_conversion_failure (H := Demo.offline) (Pathlib.of_string "x.json")
           None with_json_file (ensure_dirs (H := Demo.offline) with_json_file).2
           (String.list_byte_of_string "{") (LibraryError "Expected object or value")).
  - by repeat split.
  - apply run_returned. vm_compute. reflexivity.
  - vm_compute. reflexivity.
  - by vm_compute.
  - left. fold raw_path stored.
    set (run := read_any (H := Demo.offline) raw_path None stored).
    assert (run.1 = Raised (LibraryError "Expected object or value")) as Hfst
      by (vm_compute; reflexivity).
    assert (run.2 = stored) as Hsnd.
    { apply (reads_only_read_any (H := Demo.offline) raw_path None stored run.1).
      apply surjective_pairing. }
    rewrite (surjective_pairing run), Hfst, Hsnd. reflexivity.
Defined.

(** ** Exit codes and the order of work in [main] *)

Lemma for_each_raised_at {A} (body : A → IO unit) done x rest w wd e w' :
  for_each done body w = (Returned tt, wd) →
  body x wd = (Raised e, w') →
  for_each (done ++ x :: rest) body w = (Raised e, w').
Proof.
  revert w. induction done as [|y done IH]; intros w Hdone Hx.
  - injection Hdone as <-. simpl. by apply bind_raised.
  - simpl in *. apply bind_returned_inv in Hdone as ([] & w1 & Hy & Hdone).
    erewrite bind_returned; [|exact Hy]. by apply IH.
Qed.

(** X12.  [main] (lines 163-192) returns only 0 or 2.  It returns 2 exactly in the
    two usage errors (a [--name] count that is neither zero nor the [--url]
    count when there is a URL; neither URL nor input), and then it has
    printed nothing to stdout; it returns 0 in every other case in which it
    returns, and then the last thing printed is the summary that names the
    two storage directories. *)
Theorem main_exit_code `{Env} (args : Args) (w w' : World) (code : Z) :
  main args w = (Returned code, w') →
  let mismatch := args_url args ≠ [] ∧ args_name args ≠ [] ∧
                  length (args_name args) ≠ length (args_url args) in
  let nothing := args_url args = [] ∧ args_input args = [] in
  (code = 2%Z ∧ (mismatch ∨ nothing) ∧ stdout w' = stdout w) ∨
  (code = 0%Z ∧ ¬ mismatch ∧ ¬ nothing ∧
   last (stdout w')
   = Some (Json.nl +:+ "Done." +:+ Json.nl +:+
           "- Raw: " +:+ Pathlib.to_string RAW_DIR +:+ Json.nl +:+
           "- Processed: " +:+ Pathlib.to_string PROC_DIR)).
Proof.
  intros Hrun mismatch nothing. unfold main in Hrun.
  apply bind_returned_inv in Hrun as ([] & w1 & Hdirs & Hrun).
  destruct (ensure_dirs_inv _ _ _ Hdirs) as (f1 & -> & _).
  apply bind_returned_inv in Hrun as (early & w2 & Hdown & Hrun).
  unfold handle_downloads in Hdown.
  destruct (args_url args) as [|u us] eqn:Hurl.
  - injection Hdown as <- <-.
    apply bind_returned_inv in Hrun as ([] & w3 & Hlocal & Hrun).
    destruct (args_input args) as [|p ps] eqn:Hinput.
    + injection Hlocal as <-. injection Hrun as <- <-.
      left. split; [done|]. split; [|done]. right. done.
    + injection Hrun as <- <-. right. split; [done|].
      split; [by intros [? _]|]. split; [by intros [_ ?]|].
      simpl. apply last_snoc.
  - destruct (bool_decide (args_name args ≠ []) &&
              negb (length (args_name args) =? length (u :: us))) eqn:Hcheck.
    + injection Hdown as <- <-. injection Hrun as <- <-.
      left. split; [done|]. split; [|done]. left.
      apply andb_true_iff in Hcheck as [Hname%bool_decide_eq_true Hlen%negb_true_iff].
      apply Nat.eqb_neq in Hlen. done.
    + apply bind_returned_inv in Hdown as ([] & w3 & _ & Hnone).
      injection Hnone as <- <-.
      apply bind_returned_inv in Hrun as ([] & w4 & _ & Hrun).
      injection Hrun as <- <-. right. split; [done|]. split; [|split].
      * intros (_ & Hname & Hlen).
        apply andb_false_iff in Hcheck as [Hc%bool_decide_eq_false|Hc%negb_false_iff];
          [done|]. by apply Nat.eqb_eq in Hc.
      * by intros [? _].
      * simpl. apply last_snoc.
Qed.

Lemma main_exit_code_witness :
  let run := main (H := Demo.offline) (mkArgs ["~/t.csv"] [] [] None false) Demo.world0 in
  last (stdout run.2)
  = Some (Json.nl +:+ "Done." +:+ Json.nl +:+ "- Raw: /srv/sp/data/raw" +:+ Json.nl +:+
          "- Processed: /srv/sp/data/processed/ingested").
Proof.
  intros run.
  destruct (main_exit_code (H := Demo.offline) (mkArgs ["~/t.csv"] [] [] None false)
              Demo.world0 run.2 0%Z) as [(Hcode & _)|(_ & _ & _ & Hlast)].
  - apply run_returned. vm_compute. reflexivity.
  - done.
  - exact Hlast.
Defined.

(** X13.  [main] isolates nothing (lines 181-185): the first local input whose
    ingestion raises ends the run with that error, in the world that
    ingestion left; the inputs after it are not looked at, whatever they
    are, and no summary is printed. *)
Theorem main_stops_at_first_failure `{Env} (args : Args) (w w1 wd w2 : World)
    (done : list string) (p : string) (rest : list string) (e : exn) :
  args_url args = [] →
  args_input args = done ++ p :: rest →
  ensure_dirs w = (Returned tt, w1) →
  for_each done (ingest_local args) w1 = (Returned tt, wd) →
  ingest_local args p wd = (Raised e, w2) →
  main args w = (Raised e, w2).
Proof.
  intros Hurl Hinput Hdirs Hdone Hfail. unfold main.
  erewrite bind_returned; [|exact Hdirs].
  unfold handle_downloads. rewrite Hurl.
  erewrite bind_returned; [|reflexivity]. simpl.
  apply bind_raised. rewrite Hinput. by eapply for_each_raised_at.
Qed.

Lemma main_stops_at_first_failure_witness :
  let args := mkArgs ["~/t.csv"; "absent.csv"; "~/notes.txt"] [] [] None false in
  let w1 := (ensure_dirs (H := Demo.offline) Demo.world0).2 in
  let wd := (for_each ["~/t.csv"] (ingest_local (H := Demo.offline) args) w1).2 in
  let w2 := (ingest_local (H := Demo.offline) args "absent.csv" wd).2 in
  main (H := Demo.offline) args Demo.world0
  = (Raised (FileNotFoundError "absent.csv"), w2).
Proof.
  intros args w1 wd w2.
  apply (main_stops_at_first_failure (H := Demo.offline) args Demo.world0 w1 wd w2
           ["~/t.csv"] "absent.csv" ["~/notes.txt"]).
  - reflexivity.
  - reflexivity.
  - unfold w1. apply run_returned. vm_compute. reflexivity.
  - unfold wd. apply run_returned. vm_compute. reflexivity.
  - unfold w2. apply run_raised. vm_compute. reflexivity.
Defined.

(** In that run the first input was ingested and the third was not. *)
Example main_stops_before_later_inputs :
  let run := main (H := Demo.offline)
               (mkArgs ["~/t.csv"; "absent.csv"; "~/notes.txt"] [] [] None false)
               Demo.world0 in
  file_at (fs run.2) ["srv"; "sp"; "data"; "raw"; "t.csv"]
  = Some (String.list_byte_of_string Demo.t_csv) ∧
  file_at (fs run.2) ["srv"; "sp"; "data"; "raw"; "notes.txt"] = None.
Proof. intros run. split; vm_compute; reflexivity. Qed.

(** ** Downloads in [main] *)

Lemma split_nonempty c s : Str.split c s ≠ [].
Proof.
  destruct s as [|a s]; simpl; [done|].
  destruct (Ascii.eqb a c); [done|]. by destruct (Str.split c s).
Qed.

Lemma split_head_before c s rest :
  List.hd "" (Str.split c (s +:+ String c rest)) = List.hd "" (Str.split c s).
Proof.
  induction s as [|a s IH].
  - simpl. by rewrite Ascii.eqb_refl.
  - change (String a s +:+ String c rest) with (String a (s +:+ String c rest)).
    simpl. destruct (Ascii.eqb a c); [done|].
    pose proof (split_nonempty c (s +:+ String c rest)) as Hne1.
    pose proof (split_nonempty c s) as Hne2.
    destruct (Str.split c (s +:+ String c rest)) as [|p1 r1]; [done|].
    destruct (Str.split c s) as [|p2 r2]; [done|]. simpl in *. by rewrite IH.
Qed.

(** X14.  Line 172.  The file name of a download: with [--name] values it is the
    one at the URL's position, whatever the URL; without them it is the last
    path component of what precedes the first "?" of the URL, so that a query
    string never reaches the file name, or download_<i> when there is no such
    component.  Without names it is never empty, and choosing it touches
    nothing. *)
Theorem url_filename_choice `{Env} (names : list string) (i : nat) (url : string)
    (w : World) :
  (∀ n, names !! i = Some n → url_filename names i url w = (Returned n, w)) ∧
  (∀ query, url_filename [] i (url +:+ "?" +:+ query) w = url_filename [] i url w) ∧
  (∃ fname, url_filename [] i url w = (Returned fname, w) ∧ fname ≠ "" ∧
            (fname = "download_" +:+ pretty i ∨
             fname ∈ parts (Pathlib.of_string (List.hd "" (Str.split "?" url))))).
Proof.
  split; [|split].
  - intros n Hn. unfold url_filename. destruct names as [|n0 names]; [done|]. by rewrite Hn.
  - intros query. unfold url_filename.
    change (url +:+ "?" +:+ query) with (url +:+ String "?" query).
    by rewrite split_head_before.
  - unfold url_filename. eexists. split; [reflexivity|].
    set (p := Pathlib.of_string _). unfold Pathlib.name.
    destruct (Str.truthy (List.last (parts p) "")) eqn:Hn.
    + split; [by destruct (List.last (parts p) "")|]. right.
      destruct (parts p) as [|c cs] eqn:Hp; [done|].
      destruct (@List.exists_last _ (c :: cs)) as (front & x & Heq); [done|].
      rewrite Heq, List.last_last. apply elem_of_app. right. apply list_elem_of_here.
    + split; [done|]. by left.
Qed.

(** X15.  Lines 171-177 and 121-131.  [main] ingests a download from its place in
    raw storage under its own name.  Such an ingestion, when it returns, has
    left the downloaded bytes where they were; its record carries their
    digest, and as [original_path] the path of the raw file itself: the URL
    is not part of the record. *)
Theorem ingest_one_downloaded_file `{Env} (fname : string)
    (excel_sheet : option string) (skip_parquet : bool) (w w' : World)
    (meta : list (string * json)) :
  plain_name fname →
  let dest := RAW_DIR // fname in
  ingest_one dest (Some fname) excel_sheet skip_parquet w = (Returned meta, w') →
  ∃ body,
    file_at (fs w) (resolve dest) = Some body ∧
    file_at (fs w') (resolve dest) = Some body ∧
    dict_get meta "sha256" = Some (JStr (Sha256.hexdigest body)) ∧
    dict_get meta "raw_file" = Some (JStr ("data/raw/" +:+ fname)) ∧
    dict_get meta "original_path" = Some (JStr (Pathlib.to_string dest)).
Proof.
  intros Hc dest Hrun.
  assert (Pathlib.name dest = fname) as Hname by by apply name_joins_plain.
  assert (ingest_one dest None excel_sheet skip_parquet w = (Returned meta, w')) as Hlocal.
  { rewrite <- Hrun. unfold ingest_one, raw_path_of, target_name. rewrite Hname.
    by destruct (Str.truthy fname). }
  rewrite <- Hname in Hc.
  destruct (ingest_one_returned_inv _ _ _ _ _ _ Hc Hlocal)
    as (f1 & body & record & _ & Hbody & Hmeta & Hmode).
  rewrite Hname in *. exists body. split; [done|].
  assert (resolve dest = raw_dir_key ++ [fname]) as -> by by apply resolve_in_RAW_DIR.
  rewrite file_at_snoc. subst meta. destruct skip_parquet.
  - destruct Hmode as [-> ->].
    rewrite lookup_insert_ne by (symmetry; apply raw_entry_ne_proc_entry).
    rewrite lookup_insert_eq. by repeat split.
  - destruct Hmode as (df & pq & _ & _ & -> & ->).
    rewrite !lookup_insert_ne by (symmetry; apply raw_entry_ne_proc_entry).
    rewrite lookup_insert_eq. by repeat split.
Qed.

Lemma ingest_one_downloaded_file_witness :
  let dest := RAW_DIR (H := Demo.online) // "data.csv" in
  let fetched := (download_file (H := Demo.online) "https://example.com/data.csv?v=1" dest
                    Demo.world0).2 in
  let run := ingest_one (H := Demo.online) dest (Some "data.csv") None false fetched in
  ∃ body,
    file_at (fs fetched) (resolve (H := Demo.online) dest) = Some body ∧
    file_at (fs run.2) (resolve (H := Demo.online) dest) = Some body ∧
    run.1 ≠ Returned [] ∧
    Pathlib.to_string dest = "/srv/sp/data/raw/data.csv".
Proof.
  intros dest fetched run.
  destruct (ingest_one_downloaded_file (H := Demo.online) "data.csv" None false fetched run.2
              (match run.1 with Returned m => m | Raised _ => [] end))
    as (body & Hbefore & Hafter & _).
  - by repeat split.
  - unfold run. apply run_returned. vm_compute. reflexivity.
  - exists body. split; [exact Hbefore|]. split; [exact Hafter|].
    split; [by vm_compute|reflexivity].
Defined.

(** X16.  Lines 166-185.  The URLs come first: when the first download or its
    ingestion raises, [main] ends with that error in the world it left, and
    no local input has been looked at, whatever was given with [--input]. *)
Theorem main_url_failure_skips_inputs `{Env} (args : Args) (w w1 w2 : World)
    (url : string) (urls : list string) (e : exn) :
  args_url args = url :: urls →
  (args_name args = [] ∨ length (args_name args) = length (args_url args)) →
  ensure_dirs w = (Returned tt, w1) →
  ingest_url args 0 url w1 = (Raised e, w2) →
  main args w = (Raised e, w2).
Proof.
  intros Hurl Hnames Hdirs Hfail. unfold main.
  erewrite bind_returned; [|exact Hdirs].
  apply bind_raised. unfold handle_downloads. rewrite Hurl.
  assert (bool_decide (args_name args ≠ []) &&
          negb (length (args_name args) =? length (url :: urls)) = false) as ->.
  { destruct Hnames as [->|Hlen]; [done|].
    rewrite Hlen, Hurl, Nat.eqb_refl. apply andb_false_r. }
  apply bind_raised. simpl. by apply bind_raised.
Qed.

Lemma main_url_failure_witness :
  let args := mkArgs ["~/t.csv"] ["https://example.com/missing.csv"] [] None false in
  let w1 := (ensure_dirs (H := Demo.online) Demo.world0).2 in
  let w2 := (ingest_url (H := Demo.online) args 0 "https://example.com/missing.csv" w1).2 in
  main (H := Demo.online) args Demo.world0 = (Raised (RequestException "HTTP status 404"), w2).
Proof.
  intros args w1 w2.
  apply (main_url_failure_skips_inputs (H := Demo.online) args Demo.world0 w1 w2
           "https://example.com/missing.csv" []).
  - reflexivity.
  - by left.
  - unfold w1. apply run_returned. vm_compute. reflexivity.
  - unfold w2. apply run_raised. vm_compute. reflexivity.
Defined.

(** ** What is printed *)

(** A computation that leaves stdout and stderr as they are. *)
Definition quiet {A} (m : IO A) : Prop :=
  ∀ w r w', m w = (r, w') → stdout w' = stdout w ∧ stderr w' = stderr w.

Lemma quiet_bind {A B} (m : IO A) (k : A → IO B) :
  quiet m → (∀ a, quiet (k a)) → quiet (m ≫= k).
Proof.
  intros Hm Hk w r w'. unfold mbind, IO_bind.
  destruct (m w) as [[e|a] w1] eqn:Hmw; destruct (Hm _ _ _ Hmw) as [Ho He].
  - by intros [= _ <-].
  - intros Hka. destruct (Hk _ _ _ _ Hka) as [Ho' He']. by rewrite Ho', He'.
Qed.

Lemma quiet_ret {A} (a : A) : quiet (mret a).
Proof. by intros w r w' [= _ <-]. Qed.

Lemma quiet_raise {A} e : quiet (raise (A := A) e).
Proof. by intros w r w' [= _ <-]. Qed.

Lemma quiet_for_each {A} (l : list A) (body : A → IO unit) :
  (∀ x, quiet (body x)) → quiet (for_each l body).
Proof.
  intros Hbody. induction l as [|x l IH]; [apply quiet_ret|].
  simpl. apply quiet_bind; [apply Hbody|]. intros ?. apply IH.
Qed.

Section Quiet.
Context `{Env}.

Lemma quiet_fs_update op : quiet (fs_update op).
Proof. intros w r w'. unfold fs_update. by destruct (op (fs w)); intros [= _ <-]. Qed.

Lemma quiet_read_bytes p : quiet (read_bytes p).
Proof. by intros w r w' [= _ <-]. Qed.

Lemma quiet_relative_to_root p : quiet (relative_to_root p).
Proof.
  unfold relative_to_root. destruct (Pathlib.relative_to p ROOT);
    [apply quiet_ret|apply quiet_raise].
Qed.

Lemma quiet_read_any path sheet : quiet (read_any path sheet).
Proof. intros w r w' Hread. by apply reads_only_read_any in Hread as ->. Qed.

Lemma quiet_write_metadata meta out_path : quiet (write_metadata meta out_path).
Proof.
  unfold write_metadata. apply quiet_bind; [apply quiet_fs_update|].
  intros ?. apply quiet_fs_update.
Qed.

Lemma quiet_convert raw_path sheet now meta : quiet (convert raw_path sheet now meta).
Proof.
  unfold convert. apply quiet_bind; [apply quiet_read_any|]. intros obj.
  apply quiet_bind.
  { unfold write_parquet. apply quiet_bind; [apply quiet_fs_update|]. intros ?.
    unfold py_to_parquet. destruct (py_setitem _ _ _); [|apply quiet_raise].
    apply quiet_bind; [by intros w r w' [= _ <-]|]. intros data. apply quiet_fs_update. }
  intros ?. apply quiet_bind; [apply quiet_relative_to_root|]. intros rel.
  apply quiet_bind; [|intros cols; apply quiet_ret].
  unfold py_columns. destruct (py_setitem _ _ _); [apply quiet_ret|apply quiet_raise].
Qed.

Lemma quiet_ingest_one src raw_name sheet skip : quiet (ingest_one src raw_name sheet skip).
Proof.
  unfold ingest_one. apply quiet_bind.
  { apply quiet_bind; [apply quiet_fs_update|]. intros ?. apply quiet_fs_update. }
  intros ?. apply quiet_bind; [by intros w r w' [= _ <-]|]. intros found.
  destruct found; simpl; [|apply quiet_raise].
  apply quiet_bind.
  { unfold copy_to_raw. case_bool_decide; [|apply quiet_ret].
    apply quiet_bind; [apply quiet_read_bytes|]. intros data. apply quiet_fs_update. }
  intros ?. unfold record_ingestion. apply quiet_bind.
  { unfold base_meta. apply quiet_bind; [apply quiet_relative_to_root|]. intros rel.
    apply quiet_bind.
    - unfold sha256_file. apply quiet_bind; [apply quiet_read_bytes|].
      intros content. apply quiet_ret.
    - intros digest. apply quiet_bind; [by intros w r w' [= _ <-]|].
      intros now. apply quiet_ret. }
  intros meta. apply quiet_bind.
  { destruct skip; simpl; [apply quiet_ret|apply quiet_convert]. }
  intros meta'. apply quiet_bind; [apply quiet_write_metadata|].
  intros ?. apply quiet_bind; [apply quiet_relative_to_root|].
  intros rel. apply quiet_ret.
Qed.

Lemma quiet_download_file url dest : quiet (download_file url dest).
Proof.
  unfold download_file. destruct requests as [get|]; [|apply quiet_raise].
  apply quiet_bind; [apply quiet_fs_update|]. intros ?.
  destruct (get url) as [msg|status chunks]; [apply quiet_raise|].
  destruct (_ && _); [apply quiet_raise|].
  apply quiet_bind; [apply quiet_fs_update|]. intros ?.
  apply quiet_for_each. intros [|b chunk]; [apply quiet_ret|apply quiet_fs_update].
Qed.

End Quiet.

(** X17.  [ingest_one] and [download_file] print nothing: whatever they return or
    raise, and whatever their arguments, stdout and stderr are as before.
    Every line the script prints comes from [main]. *)
Theorem ingest_one_and_download_file_are_silent `{Env} :
  (∀ source_path raw_name excel_sheet skip_parquet,
     quiet (ingest_one source_path raw_name excel_sheet skip_parquet)) ∧
  (∀ url dest, quiet (download_file url dest)) ∧
  quiet ensure_dirs.
Proof.
  split; [intros; apply quiet_ingest_one|]. split; [intros; apply quiet_download_file|].
  apply quiet_bind; [apply quiet_fs_update|]. intros ?. apply quiet_fs_update.
Qed.

(** ** Counting the lines of a run *)

(** A computation that, when it returns, has appended [n] lines to stdout and
    left stderr alone. *)
Definition adds_lines {A} (n : nat) (m : IO A) : Prop :=
  ∀ w a w', m w = (Returned a, w') →
    (∃ more, stdout w' = stdout w ++ more ∧ length more = n) ∧ stderr w' = stderr w.

Lemma adds_lines_quiet {A} (m : IO A) : quiet m → adds_lines 0 m.
Proof.
  intros Hm w a w' Hrun. destruct (Hm _ _ _ Hrun) as [Ho He].
  split; [|done]. exists []. by rewrite app_nil_r.
Qed.

Lemma adds_lines_print s : adds_lines 1 (print s).
Proof. intros w [] w' [= <-]. simpl. split; [|done]. exists [s]. by split. Qed.

Lemma adds_lines_bind {A B} n k (m : IO A) (f : A → IO B) :
  adds_lines n m → (∀ a, adds_lines k (f a)) → adds_lines (n + k) (m ≫= f).
Proof.
  intros Hm Hf w b w' (a & w1 & Hma & Hfa)%bind_returned_inv.
  destruct (Hm _ _ _ Hma) as [(m1 & Ho1 & Hl1) He1].
  destruct (Hf _ _ _ _ Hfa) as [(m2 & Ho2 & Hl2) He2].
  split; [|congruence]. exists (m1 ++ m2).
  rewrite Ho2, Ho1, app_assoc, length_app. split; [done|lia].
Qed.

Lemma adds_lines_for_each {A} n (l : list A) (body : A → IO unit) :
  (∀ x, adds_lines n (body x)) → adds_lines (length l * n) (for_each l body).
Proof.
  intros Hbody. induction l as [|x l IH]; simpl.
  - apply adds_lines_quiet, quiet_ret.
  - apply adds_lines_bind; [apply Hbody|]. intros ?. apply IH.
Qed.

Section Lines.
Context `{Env}.

Lemma quiet_expanduser p : quiet (expanduser p).
Proof.
  intros w r w'. unfold expanduser.
  destruct (is_abs p), (parts p) as [|c cs]; try (by intros [= _ <-]).
  destruct (Str.starts_with "~" c); [|by intros [= _ <-]].
  by destruct (gethomedir _); intros [= _ <-].
Qed.

Lemma quiet_url_filename names i url : quiet (url_filename names i url).
Proof.
  unfold url_filename. destruct names; [apply quiet_ret|].
  destruct (_ !! i); [apply quiet_ret|apply quiet_raise].
Qed.

Lemma adds_lines_ingest_local args p : adds_lines 2 (ingest_local args p).
Proof.
  unfold ingest_local.
  apply (adds_lines_bind 0 2); [apply adds_lines_quiet, quiet_expanduser|]. intros path.
  apply (adds_lines_bind 1 1); [apply adds_lines_print|]. intros ?.
  apply (adds_lines_bind 0 1); [apply adds_lines_quiet, quiet_ingest_one|]. intros meta.
  apply adds_lines_print.
Qed.

Lemma adds_lines_ingest_url args i url : adds_lines 2 (ingest_url args i url).
Proof.
  unfold ingest_url.
  apply (adds_lines_bind 0 2); [apply adds_lines_quiet, quiet_url_filename|]. intros fname.
  apply (adds_lines_bind 1 1); [apply adds_lines_print|]. intros ?.
  apply (adds_lines_bind 0 1); [apply adds_lines_quiet, quiet_download_file|]. intros ?.
  apply (adds_lines_bind 0 1); [apply adds_lines_quiet, quiet_ingest_one|]. intros meta.
  apply adds_lines_print.
Qed.

End Lines.



(** X19.  A run of [main] that exits with 0 has printed two lines per URL and two
    per local input, in that order of work, and the closing summary after
    them; nothing went to stderr.  (Lines 166-191.) *)
Theorem main_prints_two_lines_per_item `{Env} (args : Args) (w w' : World) :
  main args w = (Returned 0%Z, w') →
  (∃ more, stdout w' = stdout w ++ more ∧
           length more = 2 * (length (args_url args) + length (args_input args)) + 1 ∧
           last more = Some (Json.nl +:+ "Done." +:+ Json.nl +:+
                             "- Raw: " +:+ Pathlib.to_string RAW_DIR +:+ Json.nl +:+
                             "- Processed: " +:+ Pathlib.to_string PROC_DIR)) ∧
  stderr w' = stderr w.
Proof.
  unfold main. intros ([] & w1 & Hdirs & Hrest)%bind_returned_inv.
  assert (quiet ensure_dirs) as Hq.
  { apply quiet_bind; [apply quiet_fs_update|]. intros ?. apply quiet_fs_update. }
  destruct (Hq _ _ _ Hdirs) as [Ho1 He1].
  apply bind_returned_inv in Hrest as (early & w2 & Hdown & Hrest).
  assert (early = None ∧
          (∃ more, stdout w2 = stdout w1 ++ more ∧ length more = length (args_url args) * 2) ∧
          stderr w2 = stderr w1) as (-> & (m1 & Ho2 & Hl2) & He2).
  { revert Hdown. unfold handle_downloads.
    destruct (args_url args) as [|u us] eqn:Hurls.
    - intros [= <- <-]. split; [done|]. split; [|done]. exists []. by rewrite app_nil_r.
    - destruct (bool_decide _ && negb _).
      + intros ([] & w3 & Herr & [= <- <-])%bind_returned_inv.
        simpl in Hrest. by injection Hrest.
      + intros ([] & w3 & Hloop & [= <- <-])%bind_returned_inv.
        split; [done|].
        pose proof (adds_lines_for_each 2 (imap (λ i url, (i, url)) (u :: us))
                      (λ iu, ingest_url args iu.1 iu.2)
                      (λ iu, adds_lines_ingest_url args iu.1 iu.2) _ _ _ Hloop) as Hlines.
        by rewrite length_imap in Hlines. }
  apply bind_returned_inv in Hrest as ([] & w3 & Hloop & Hrest).
  destruct (adds_lines_for_each 2 _ _ (adds_lines_ingest_local args) _ _ _ Hloop)
    as [(m2 & Ho3 & Hl3) He3].
  destruct (bool_decide _ && bool_decide _).
  { apply bind_returned_inv in Hrest as ([] & w4 & _ & Hcode). by injection Hcode. }
  apply bind_returned_inv in Hrest as ([] & w4 & Hprint & [= <-]).
  injection Hprint as <-. simpl. split; [|congruence].
  eexists (m1 ++ m2 ++ [_]). split.
  - rewrite Ho3, Ho2, Ho1. by rewrite <- !app_assoc.
  - split; [rewrite !length_app; simpl; lia|].
    by rewrite app_assoc, last_snoc.
Qed.

Lemma main_prints_two_lines_per_item_witness :
  let run := main (H := Demo.offline) (mkArgs ["~/t.csv"] [] [] None false) Demo.world0 in
  length (stdout run.2) = 3 ∧ stderr run.2 = [].
Proof.
  intros run.
  destruct (main_prints_two_lines_per_item (H := Demo.offline)
              (mkArgs ["~/t.csv"] [] [] None false) Demo.world0 run.2)
    as [(more & Hout & Hlen & _) Herr].
  - apply run_returned. vm_compute. reflexivity.
  - split; [|exact Herr]. rewrite Hout, length_app, Hlen. reflexivity.
Defined.

(** ** A raw name that leaves the project *)

(** X20.  Lines 121-128.  The raw name is joined to the raw directory as it is, and
    an absolute one replaces the directory: the raw path may then lie outside
    the project root.  The copy (line 125) comes before the first use of
    [relative_to(ROOT)] (line 128), so [ingest_one] writes the bytes of the
    source at that outside location and only then raises [ValueError]; nothing
    else is written, and neither output nor sidecar exists afterwards. *)
Theorem ingest_one_raw_name_outside_root `{Env} (source_path : Path)
    (raw_name excel_sheet : option string) (skip_parquet : bool) (w w1 : World)
    (data : list byte) :
  let raw_path := raw_path_of source_path raw_name in
  ensure_dirs w = (Returned tt, w1) →
  Pathlib.relative_to raw_path ROOT = None →
  Fs.node_at (fs w1) (resolve source_path) = Some (File data) →
  Fs.node_at (fs w1) (resolve raw_path) ≠ Some Dir →
  Fs.node_at (fs w1) (removelast (resolve raw_path)) = Some Dir →
  ∃ msg w',
    ingest_one source_path raw_name excel_sheet skip_parquet w
    = (Raised (ValueError msg), w') ∧
    Fs.node_at (fs w') (resolve raw_path) = Some (File data) ∧
    (∀ k, k ≠ resolve raw_path → fs w' !! k = fs w1 !! k) ∧
    clock_reads w' = clock_reads w1.
Proof.
  intros raw_path Hdirs Hrel Hsrc Hnd Hparent.
  assert (∀ w2, record_ingestion source_path raw_path excel_sheet skip_parquet w2
                = (Raised (ValueError (Pathlib.to_string raw_path +:+
                                       " is not in the subpath of " +:+
                                       Pathlib.to_string ROOT)), w2)) as Hrecord.
  { intros w2. unfold record_ingestion, base_meta, relative_to_root.
    rewrite Hrel. by repeat apply bind_raised. }
  unfold ingest_one. erewrite bind_returned; [|exact Hdirs].
  erewrite bind_returned; [|reflexivity]. rewrite Hsrc.
  rewrite bool_decide_true by eauto. simpl. fold raw_path.
  unfold copy_to_raw. case_bool_decide as Hne.
  - eexists _, (set_fs (<[resolve raw_path := File data]> (fs w1)) w1).
    split.
    + erewrite bind_returned; [apply Hrecord|].
      erewrite bind_returned; [|by apply read_bytes_file].
      unfold write_bytes, fs_update, Fs.write. rewrite Hparent.
      by destruct (Fs.node_at (fs w1) (resolve raw_path)) as [[d|]|].
    + simpl. split; [|split; [|done]].
      * revert Hnd. generalize (resolve raw_path). intros k.
        destruct k as [|c k _] using rev_ind; [done|].
        intros _. by rewrite node_at_snoc, lookup_insert_eq.
      * intros k Hk. by rewrite lookup_insert_ne.
  - exists (Pathlib.to_string raw_path +:+ " is not in the subpath of " +:+
            Pathlib.to_string ROOT), w1.
    split; [by erewrite bind_returned; [apply Hrecord|]|].
    split; [|done].
    assert (resolve source_path = resolve raw_path) as <-; [|done].
    by destruct (decide (resolve source_path = resolve raw_path)).
Qed.

Lemma ingest_one_raw_name_outside_root_witness :
  let run := ingest_one (H := Demo.offline) (Pathlib.of_string "/home/ana/t.csv")
               (Some "/home/ana/elsewhere.csv") None false Demo.world0 in
  ∃ msg, run.1 = Raised (ValueError msg) ∧
         Fs.node_at (fs run.2) ["home"; "ana"; "elsewhere.csv"]
         = Some (File (String.list_byte_of_string Demo.t_csv)).
Proof.
  intros run.
  destruct (ingest_one_raw_name_outside_root (H := Demo.offline)
              (Pathlib.of_string "/home/ana/t.csv") (Some "/home/ana/elsewhere.csv")
              None false Demo.world0 (ensure_dirs (H := Demo.offline) Demo.world0).2
              (String.list_byte_of_string Demo.t_csv))
    as (msg & w' & Hrun & Hcopy & _).
  - apply run_returned. vm_compute. reflexivity.
  - vm_compute. reflexivity.
  - vm_compute. reflexivity.
  - vm_compute. discriminate.
  - vm_compute. reflexivity.
  - exists msg. fold run in Hrun. rewrite Hrun. split; [done|exact Hcopy].
Defined.
